(** * magic-ads: the local event finder

    A shallow embedding of [gemini_service.py] (prompt construction and
    interpretation of the model's response) and of the [/find-events]
    handler of [main.py], with the properties of the request/response
    contract proved about it.

    Text is [string] (a Python [str] seen as its UTF-8 bytes), integers
    are [Z].  The calls to the hosted model, the clock and Python
    exceptions are threaded through a small state-and-exception monad.
    The [print] calls only log and are left out; how the outcome of the
    search comes from the worker thread of [asyncio.to_thread] to the
    handler's [await] is in [Asyncio]. *)

From Stdlib Require Import ZArith List String Ascii Bool Lia.
From Stdlib Require Import DecimalString.
From Stdlib Require QArith.
Import ListNotations.

Local Open Scope string_scope.
Local Open Scope Z_scope.

(** ** Text *)

Module Text.

(** The two characters that cannot be written inside a literal. *)
Definition dq : string := String (ascii_of_nat 34) EmptyString.
Definition nl : string := String (ascii_of_nat 10) EmptyString.

(** [str(n)] and the [{n}] replacement field for a Python [int]. *)
Definition str_of_int (n : Z) : string := NilZero.string_of_int (Z.to_int n).

(** One decimal digit, [0 <= n < 10]. *)
Definition digit (n : Z) : string :=
  String (ascii_of_nat (48 + Z.to_nat (n mod 10))) EmptyString.

(** [needle in hay] as a proposition: [hay] splits around [needle]. *)
Definition Contains (needle hay : string) : Prop :=
  exists pre post, hay = pre ++ needle ++ post.

(** [hay.startswith(needle)] is [String.prefix needle hay]; the number of
    positions of [hay] at which [needle] starts (overlaps included). *)
Fixpoint occurrences (needle hay : string) : nat :=
  ((if prefix needle hay then 1 else 0) +
   match hay with
   | EmptyString => 0
   | String _ rest => occurrences needle rest
   end)%nat.

(** [needle in hay], executable. *)
Fixpoint contains (needle hay : string) : bool :=
  prefix needle hay ||
  match hay with
  | EmptyString => false
  | String _ rest => contains needle rest
  end.

(** [s.split(sep)[0]] for a one-character separator: the text before the
    first [sep], all of [s] when there is none. *)
Fixpoint split_head (sep : ascii) (s : string) : string :=
  match s with
  | EmptyString => EmptyString
  | String c rest =>
      if Ascii.eqb c sep then EmptyString else String c (split_head sep rest)
  end.

(** Truth value of a [str]: non-empty. *)
Definition truthy (s : string) : bool :=
  match s with EmptyString => false | String _ _ => true end.

End Text.

(** ** Calendar dates

    [datetime.date] of the Python runtime: the proleptic Gregorian
    calendar from 0001-01-01 (ordinal 1) to 9999-12-31, with the ordinal
    conversions that [date + timedelta] goes through. *)

Module Calendar.

Record date := mkdate { year : Z; month : Z; day : Z }.

Definition MINYEAR : Z := 1.
Definition MAXYEAR : Z := 9999.
Definition MAXORDINAL : Z := 3652059.

Definition is_leap (y : Z) : bool :=
  (y mod 4 =? 0) && (negb (y mod 100 =? 0) || (y mod 400 =? 0)).

Definition days_before_year (y : Z) : Z :=
  let y' := y - 1 in y' * 365 + y' / 4 - y' / 100 + y' / 400.

(** The table [_DAYS_IN_MONTH], index 1..12. *)
Definition DAYS_IN_MONTH (m : Z) : Z :=
  match m with
  | 1 => 31 | 2 => 28 | 3 => 31 | 4 => 30 | 5 => 31 | 6 => 30
  | 7 => 31 | 8 => 31 | 9 => 30 | 10 => 31 | 11 => 30 | 12 => 31
  | _ => 0
  end.

(** The table [_DAYS_BEFORE_MONTH], index 1..12. *)
Definition DAYS_BEFORE_MONTH (m : Z) : Z :=
  match m with
  | 1 => 0 | 2 => 31 | 3 => 59 | 4 => 90 | 5 => 120 | 6 => 151
  | 7 => 181 | 8 => 212 | 9 => 243 | 10 => 273 | 11 => 304 | 12 => 334
  | _ => 0
  end.

Definition days_in_month (y m : Z) : Z :=
  if (m =? 2) && is_leap y then 29 else DAYS_IN_MONTH m.

Definition days_before_month (y m : Z) : Z :=
  DAYS_BEFORE_MONTH m + (if (2 <? m) && is_leap y then 1 else 0).

(** [date.toordinal()]. *)
Definition ymd2ord (d : date) : Z :=
  days_before_year (year d) + days_before_month (year d) (month d) + day d.

Definition DI400Y : Z := 146097.
Definition DI100Y : Z := 36524.
Definition DI4Y : Z := 1461.

(** [date.fromordinal(n)]: 400-, 100-, 4- and 1-year cycles, then an
    estimate of the month that is corrected when it is one too large. *)
Definition ord2ymd (n : Z) : date :=
  let n := n - 1 in
  let n400 := n / DI400Y in
  let n := n mod DI400Y in
  let y := n400 * 400 + 1 in
  let n100 := n / DI100Y in
  let n := n mod DI100Y in
  let n4 := n / DI4Y in
  let n := n mod DI4Y in
  let n1 := n / 365 in
  let n := n mod 365 in
  let y := y + n100 * 100 + n4 * 4 + n1 in
  if (n1 =? 4) || (n100 =? 4) then mkdate (y - 1) 12 31
  else
    let leapyear := (n1 =? 3) && (negb (n4 =? 24) || (n100 =? 3)) in
    let m := Z.shiftr (n + 50) 5 in
    let preceding :=
      DAYS_BEFORE_MONTH m + (if (2 <? m) && leapyear then 1 else 0) in
    if n <? preceding then
      let m := m - 1 in
      let preceding :=
        preceding - (DAYS_IN_MONTH m + (if (m =? 2) && leapyear then 1 else 0)) in
      mkdate y m (n - preceding + 1)
    else mkdate y m (n - preceding + 1).

(** The values a [date] object can hold. *)
Definition valid_date (d : date) : Prop :=
  MINYEAR <= year d <= MAXYEAR /\ 1 <= month d <= 12 /\
  1 <= day d <= days_in_month (year d) (month d).

Definition valid_dateb (d : date) : bool :=
  (MINYEAR <=? year d) && (year d <=? MAXYEAR) &&
  (1 <=? month d) && (month d <=? 12) &&
  (1 <=? day d) && (day d <=? days_in_month (year d) (month d)).

(** The day after [d] on the calendar, by the rules of the calendar
    rather than through ordinals: the next day of the month, else the
    first of the next month, else New Year's Day. *)
Definition next_day (d : date) : date :=
  if day d <? days_in_month (year d) (month d)
  then mkdate (year d) (month d) (day d + 1)
  else if month d <? 12
  then mkdate (year d) (month d + 1) 1
  else mkdate (year d + 1) 1 1.

(** [n] calendar days after [d]. *)
Fixpoint days_after (n : nat) (d : date) : date :=
  match n with
  | O => d
  | S k => next_day (days_after k d)
  end.

(** [%B] in the C locale (the program never sets another). *)
Definition month_name (m : Z) : string :=
  match m with
  | 1 => "January" | 2 => "February" | 3 => "March" | 4 => "April"
  | 5 => "May" | 6 => "June" | 7 => "July" | 8 => "August"
  | 9 => "September" | 10 => "October" | 11 => "November"
  | 12 => "December"
  | _ => EmptyString
  end.

(** [%d]: day of the month, two digits. *)
Definition fmt_dd (d : Z) : string := Text.digit (d / 10) ++ Text.digit d.

(** [%Y]: the year in decimal, as the C library writes it; glibc does
    not pad it, so that a year below 1000 has fewer than four digits.
    From year 1000 on it is the four digits every platform writes. *)
Definition fmt_yyyy (y : Z) : string := Text.str_of_int y.

(** [d.strftime('%B %d, %Y')]. *)
Definition strftime (d : date) : string :=
  month_name (month d) ++ " " ++ fmt_dd (day d) ++ ", " ++ fmt_yyyy (year d).

(** The "Month DD, YYYY" style, by its words: the name of the month,
    the day in two digits, a comma, the year in four digits. *)
Definition month_dd_yyyy (d : date) : string :=
  month_name (month d) ++ " " ++
  Text.digit (day d / 10) ++ Text.digit (day d) ++ ", " ++
  Text.digit (year d / 1000) ++ Text.digit (year d / 100) ++
  Text.digit (year d / 10) ++ Text.digit (year d).

End Calendar.

Import Calendar.

(** ** Checking the calendar

    What is evaluated to compare the ordinal conversions with the rules
    of the calendar over one 400-year cycle. *)

Module CalendarCheck.

Definition date_eqb (a b : date) : bool :=
  (year a =? year b) && (month a =? month b) && (day a =? day b).

(** Checking a predicate on [lo, lo + 2^k) by halving. *)
Fixpoint all_below (k : nat) (lo : Z) (f : Z -> bool) : bool :=
  match k with
  | O => f lo
  | S k' => all_below k' lo f && all_below k' (lo + 2 ^ Z.of_nat k') f
  end.

(** Checking a predicate on [lo..hi]. *)
Definition all_in (k : nat) (lo hi : Z) (f : Z -> bool) : bool :=
  all_below k lo (fun z => if hi <? z then true else f z).

(** Moving a date by whole 400-year cycles. *)
Definition add_years (k : Z) (d : date) : date :=
  mkdate (year d + k) (month d) (day d).

(** One cycle, day by day: the date of the next ordinal is the next day
    of the calendar, and the ordinal of a date is the one it came from. *)
Definition cycle_step_ok (r : Z) : bool :=
  let d := ord2ymd (r + 1) in
  date_eqb (ord2ymd (r + 2)) (next_day d) &&
  (ymd2ord d =? r + 1) && valid_dateb d &&
  (year d <=? 400) && ((MAXORDINAL - 24 * DI400Y <=? r) || (year d <=? 399)).

(** One cycle, date by date: a date is the date of its ordinal. *)
Definition cycle_date_ok (y : Z) : bool :=
  all_in 4 1 12 (fun m =>
    all_in 5 1 31 (fun dd =>
      let d := mkdate y m dd in
      if valid_dateb d then
        let o := ymd2ord d in
        date_eqb (ord2ymd o) d && (1 <=? o) && (o <=? DI400Y)
      else true)).

(** From year 1000 on, [%Y] is the four digits of the year. *)
Definition year_format_ok (y : Z) : bool :=
  String.eqb (fmt_yyyy y)
    (Text.digit (y / 1000) ++ Text.digit (y / 100) ++ Text.digit (y / 10)
     ++ Text.digit y).

End CalendarCheck.

Import CalendarCheck.

(** ** The Python runtime: exceptions, the clock, the hosted model *)

Module Py.

(** An instance of [Exception]: its class, by the name a traceback
    gives it (with the module, for a class that is not built in), and
    [str(e)]. *)
Record exn := mkexn { exn_class : string; exn_str : string }.

Definition Exception (msg : string) : exn := mkexn "Exception" msg.
Definition OverflowError (msg : string) : exn := mkexn "OverflowError" msg.
Definition AttributeError (msg : string) : exn := mkexn "AttributeError" msg.

(** What evaluating an expression gives: a value or a raised exception. *)
Inductive outcome (A : Type) : Type :=
| Ok (a : A)
| Raise (e : exn).
Arguments Ok {A} a.
Arguments Raise {A} e.

(** [datetime.timedelta(days=n)]: the number of days, limited in size.
    (Beyond the range of a C [int] the runtime words the message
    differently; the class is the same.) *)
Definition timedelta (days : Z) : outcome Z :=
  if Z.abs days <=? 999999999 then Ok days
  else Raise (OverflowError
    ("days=" ++ Text.str_of_int days ++ "; must have magnitude <= 999999999")).

(** [d + delta] for a [date] and a [timedelta]. *)
Definition date_add (d : date) (delta : Z) : outcome date :=
  let o := ymd2ord d + delta in
  if (0 <? o) && (o <=? MAXORDINAL) then Ok (ord2ymd o)
  else Raise (OverflowError "date value out of range").

(** A member of an enumeration of integers, such as the block reasons
    of the model service: false when its value is 0. *)
Record enum_member := mkenum { value : Z; name : string }.

Definition BLOCK_REASON_UNSPECIFIED : enum_member :=
  mkenum 0 "BLOCK_REASON_UNSPECIFIED".
Definition SAFETY : enum_member := mkenum 1 "SAFETY".
Definition OTHER : enum_member := mkenum 2 "OTHER".

(** The response object of [generate_content], as far as the program
    looks at it: [parts], [prompt_feedback.block_reason] ([None] when
    unset) and the attribute [text] ([None] when the object has no such
    attribute, so that [hasattr] is false). *)
Record Response := mkResponse {
  type_name : string;
  parts : list string;
  block_reason : option enum_member;
  text : option string
}.

(** [if x:] for the fields read above. *)
Definition parts_truthy (r : Response) : bool :=
  match parts r with [] => false | _ :: _ => true end.

Definition block_reason_truthy (r : Response) : bool :=
  match block_reason r with
  | Some m => negb (value m =? 0)
  | None => false
  end.

Definition hasattr_text (r : Response) : bool :=
  match text r with Some _ => true | None => false end.

(** [response.text]. *)
Definition getattr_text (r : Response) : outcome string :=
  match text r with
  | Some t => Ok t
  | None => Raise (AttributeError
      ("'" ++ type_name r ++ "' object has no attribute 'text'"))
  end.

(** The calls made to the hosted model, oldest first, each with its
    prompt and what came back. *)
Definition history : Type := list (string * outcome Response).

(** The model handle: what a call of [generate_content] on a prompt
    comes back with, which may depend on the calls made before it. *)
Record GenerativeModel := mkModel {
  generate_content : history -> string -> outcome Response
}.

(** The world a request runs in: today's date, and the calls made to the
    hosted model so far, each with its prompt and what came back. *)
Record world := mkworld {
  clock : date;
  calls : list (string * outcome Response)
}.

(** Computations that read the clock, call the model and may raise.
    The world survives a raise, as the effects of a Python [try] body do. *)
Definition M (A : Type) : Type := world -> outcome A * world.

Definition ret {A} (a : A) : M A := fun w => (Ok a, w).

Definition raise {A} (e : exn) : M A := fun w => (Raise e, w).

Definition bind {A B} (m : M A) (k : A -> M B) : M B :=
  fun w =>
    match m w with
    | (Ok a, w') => k a w'
    | (Raise e, w') => (Raise e, w')
    end.

Definition lift {A} (o : outcome A) : M A := fun w => (o, w).

(** [try: body  except Exception as e: handler]. *)
Definition try_except {A} (body : M A) (handler : exn -> M A) : M A :=
  fun w =>
    match body w with
    | (Ok a, w') => (Ok a, w')
    | (Raise e, w') => handler e w'
    end.

(** [datetime.date.today()]. *)
Definition date_today : M date := fun w => (Ok (clock w), w).

(** [model.generate_content(prompt)], recorded in the world. *)
Definition call_generate_content (model : GenerativeModel) (prompt : string)
  : M Response :=
  fun w =>
    let r := generate_content model (calls w) prompt in
    (r, mkworld (clock w) (calls w ++ [(prompt, r)])).

End Py.

Import Py.

Declare Scope py_scope.
Delimit Scope py_scope with py.
Notation "x <- m ;; k" := (bind m (fun x => k))
  (at level 61, m at next level, right associativity) : py_scope.
Local Open Scope py_scope.

(** ** The event loop: coroutines and the worker thread

    [asyncio] of the Python runtime (CPython 3.11), as far as the
    handler's one [await] goes. *)

Module Asyncio.

(** What comes of running a coroutine, or of awaiting something: it
    finishes, with a value or with an exception that is an
    [Exception]; it raises [asyncio.CancelledError], which is not an
    [Exception], so that [except Exception] lets it through; or it
    never finishes. *)
Inductive coro (A : Type) : Type :=
| Finished (o : outcome A)
| Cancelled (msg : string)
| Pending.
Arguments Finished {A} o.
Arguments Cancelled {A} msg.
Arguments Pending {A}.

(** Coroutines over the world. *)
Definition Co (A : Type) : Type := world -> coro A * world.

(** [return a] in an [async def]. *)
Definition co_ret {A} (a : A) : Co A := fun w => (Finished (Ok a), w).

Definition co_bind {A B} (m : Co A) (k : A -> Co B) : Co B :=
  fun w =>
    match m w with
    | (Finished (Ok a), w') => k a w'
    | (Finished (Raise e), w') => (Finished (Raise e), w')
    | (Cancelled msg, w') => (Cancelled msg, w')
    | (Pending, w') => (Pending, w')
    end.

(** [try: body  except Exception as e: handler] in an [async def]. *)
Definition co_try_except {A} (body : Co A) (handler : exn -> Co A) : Co A :=
  fun w =>
    match body w with
    | (Finished (Ok a), w') => (Finished (Ok a), w')
    | (Finished (Raise e), w') => handler e w'
    | (Cancelled msg, w') => (Cancelled msg, w')
    | (Pending, w') => (Pending, w')
    end.

(** The classes of [concurrent.futures] and [asyncio] that matter when
    the future of the worker thread is copied to the future awaited. *)
Definition futures_CancelledError : string :=
  "concurrent.futures._base.CancelledError".
Definition futures_InvalidStateError : string :=
  "concurrent.futures._base.InvalidStateError".
Definition asyncio_InvalidStateError : string :=
  "asyncio.exceptions.InvalidStateError".

(** How an exception raised on the worker thread reaches the [await]
    ([_convert_future_exc], then [Future.set_exception]): a
    [concurrent.futures.CancelledError] becomes an
    [asyncio.CancelledError] with the same arguments, an
    [InvalidStateError] becomes that of [asyncio]; a [StopIteration]
    cannot be set on the awaited future, which then stays pending; any
    other exception is raised by the [await] as it is. *)
Definition hand_over {A} (e : exn) : coro A :=
  if String.eqb (exn_class e) futures_CancelledError then
    Cancelled (exn_str e)
  else if String.eqb (exn_class e) futures_InvalidStateError then
    Finished (Raise (mkexn asyncio_InvalidStateError (exn_str e)))
  else if String.eqb (exn_class e) "StopIteration" then Pending
  else Finished (Raise e).

(** What the [await] gives for an outcome of the function run on the
    worker thread. *)
Definition thread_result {A} (o : outcome A) : coro A :=
  match o with
  | Ok a => Finished (Ok a)
  | Raise e => hand_over e
  end.

(** [await asyncio.to_thread(func, ...)]. *)
Definition to_thread {A} (func : M A) : Co A :=
  fun w => let (o, w') := func w in (thread_result o, w').

End Asyncio.

Import Asyncio.

Notation "x <~ m ;; k" := (co_bind m (fun x => k))
  (at level 61, m at next level, right associativity) : py_scope.

(** ** gemini_service.py *)

Module GeminiService.

(** The replacement fields of the prompt's f-string. *)
Inductive field : Type :=
| F_location          (* {location} *)
| F_date_range        (* {date_range_str} *)
| F_interest          (* {interest_description} *)
| F_city              (* {location.split(',')[0]} *)
| F_days.             (* {timeframe_days} *)

Definition field_eqb (a b : field) : bool :=
  match a, b with
  | F_location, F_location | F_date_range, F_date_range
  | F_interest, F_interest | F_city, F_city | F_days, F_days => true
  | _, _ => false
  end.

(** An f-string is a sequence of literal text and replacement fields. *)
Inductive piece : Type :=
| T (s : string)
| F (f : field).

Definition NL : piece := T Text.nl.
Definition DQ : piece := T Text.dq.

(** The f-string assigned to [prompt], from the opening to the closing
    triple quote. *)
Definition prompt_template : list piece :=
  [ NL;
    T "    Act as a helpful local event finder assistant for ";
    F F_location;
    T ". Your task is to find upcoming events based on a user's specific interest.";
    NL;
    NL;
    T "    **Location Focus:** ";
    F F_location;
    T " (and immediately surrounding areas if relevant).";
    NL;
    T "    **Timeframe:** Events happening between ";
    F F_date_range;
    T ".";
    NL;
    T "    **User's Interest:** Find events related to ";
    DQ;
    F F_interest;
    DQ;
    T ". Interpret this interest broadly but accurately. For example, if the interest is 'live acoustic music', look for concerts, open mic nights, coffee shop performances etc. If it's 'volunteer gardening', look for park cleanups, community garden work days, planting events etc.";
    NL;
    NL;
    T "    **Instructions:**";
    NL;
    T "    1.  **Use your web search capability extensively** to scan local news sites, city websites (";
    F F_city;
    T " city website), community calendars, park districts, libraries, Facebook events (if accessible), Eventbrite, and other relevant online sources for ";
    F F_location;
    T ".";
    NL;
    T "    2.  Filter the search results to find events that strongly match the user's interest: ";
    DQ;
    F F_interest;
    DQ;
    T ".";
    NL;
    T "    3.  For each matching event found, extract and list the following information clearly:";
    NL;
    T "        * Event Name/Title";
    NL;
    T "        * Date(s) and Time(s) (if available)";
    NL;
    T "        * Specific Venue/Location (if available)";
    NL;
    T "        * A brief summary or description of the event and why it matches the interest.";
    NL;
    T "        * Source/Link where you found the information (if possible).";
    NL;
    T "    4.  Format the results as a clean, easy-to-read list (e.g., using Markdown bullet points or numbered lists).";
    NL;
    T "    5.  If you cannot find any events matching the criteria within the timeframe after searching, explicitly state that ";
    DQ;
    T "No specific events matching '";
    F F_interest;
    T "' were found in ";
    F F_location;
    T " for the next ";
    F F_days;
    T " days.";
    DQ;
    NL;
    T "    6.  Do not include events outside the specified timeframe.";
    NL;
    T "    7.  Do not invent events. Only list events based on your web search findings.";
    NL;
    NL;
    T "    Begin search and report your findings.";
    NL;
    T "    " ].

(** The pieces of the prompt's template from position [i], [n] of them. *)
Definition slice (i n : nat) : list piece :=
  firstn n (skipn i prompt_template).

(** The local variables the f-string reads. *)
Record locals := mklocals {
  location : string;
  interest_description : string;
  timeframe_days : Z;
  date_range_str : string
}.

Definition comma : ascii := ascii_of_nat 44.

Definition eval_field (l : locals) (f : field) : string :=
  match f with
  | F_location => location l
  | F_date_range => date_range_str l
  | F_interest => interest_description l
  | F_city => Text.split_head comma (location l)
  | F_days => Text.str_of_int (timeframe_days l)
  end.

Definition eval_piece (l : locals) (p : piece) : string :=
  match p with
  | T s => s
  | F f => eval_field l f
  end.

(** Evaluation of an f-string: the pieces, in order, joined. *)
Fixpoint render (l : locals) (t : list piece) : string :=
  match t with
  | [] => EmptyString
  | p :: rest => eval_piece l p ++ render l rest
  end.

(** How many times a template has the replacement field [f]. *)
Definition field_count (f : field) (t : list piece) : nat :=
  List.length
    (filter (fun p => match p with F g => field_eqb f g | T _ => false end) t).

(** The prompt builder: the statements of [find_local_events_via_search]
    from [today = ...] to the end of the f-string, with the date read
    from the clock as an argument. *)
Definition build_prompt (location interest_description : string)
    (timeframe_days : Z) (today : date) : outcome string :=
  match timedelta timeframe_days with
  | Raise e => Raise e
  | Ok delta =>
      match date_add today delta with
      | Raise e => Raise e
      | Ok end_date =>
          let date_range_str :=
            strftime today ++ " and " ++ strftime end_date in
          Ok (render
                (mklocals location interest_description timeframe_days
                          date_range_str)
                prompt_template)
      end
  end.

(** What the body of the [try] does with the response. *)
Definition handle_response (response : Response) : M string :=
  if negb (parts_truthy response) then
    if block_reason_truthy response then
      raise (Exception
        ("Content generation blocked. Reason: " ++
         match block_reason response with
         | Some m => name m
         | None => EmptyString
         end))
    else
      if hasattr_text response &&
         match text response with Some t => Text.truthy t | None => false end
      then lift (getattr_text response)
      else raise (Exception
        "Content generation failed. Received an empty response.")
  else
    lift (getattr_text response).

(** [find_local_events_via_search]; [timeframe_days] is [None] when the
    caller leaves the argument out, and then takes its default, 14. *)
Definition find_local_events_via_search (model : GenerativeModel)
    (location interest_description : string) (timeframe_days : option Z)
  : M string :=
  let timeframe_days :=
    match timeframe_days with Some n => n | None => 14 end in
  today <- date_today ;;
  prompt <- lift (build_prompt location interest_description
                               timeframe_days today) ;;
  try_except
    (response <- call_generate_content model prompt ;;
     handle_response response)
    (fun e => raise e).

End GeminiService.

(** ** main.py *)

Module Main.

Import GeminiService.

(** The body of [POST /find-events]. *)
Record EventRequest := mkEventRequest {
  interest_description : string;
  location : string
}.

Record EventResponse := mkEventResponse {
  results_text : string;
  error : option string
}.

(** [find_events_api]; [gemini_model] is the global set at startup,
    [None] when the model could not be initialized. *)
Definition find_events_api (gemini_model : option GenerativeModel)
    (request_data : EventRequest) : Co EventResponse :=
  match gemini_model with
  | None =>
      co_ret (mkEventResponse EmptyString
        (Some "AI model is not available. Please check server logs or try again later."))
  | Some model =>
      co_try_except
        (generated_text_summary <~
           to_thread
             (find_local_events_via_search model
                (location request_data) (interest_description request_data)
                None) ;;
         co_ret (mkEventResponse generated_text_summary None))
        (fun e =>
           co_ret (mkEventResponse EmptyString
                     (Some ("Failed to find events: " ++ exn_str e))))
  end.

End Main.

Import GeminiService.

(** ** What a run did

    Read off the worlds before and after it. *)

Module Observe.

Import Main.

(** The run from [w] to [w'] made one call to the hosted model, with
    prompt [p], and [r] is what came back. *)
Definition external_call (w w' : world) (p : string) (r : outcome Response)
  : Prop :=
  calls w' = (calls w ++ [(p, r)])%list.

(** The prompts sent to the hosted model between [w] and [w']. *)
Definition prompts_sent (w w' : world) : list string :=
  skipn (List.length (calls w)) (map fst (calls w')).

(** The response of the error branch of [find_events_api]. *)
Definition failed (e : exn) : EventResponse :=
  mkEventResponse EmptyString (Some ("Failed to find events: " ++ exn_str e)).

(** What [find_events_api] ends with, for each way its [await] can
    end. *)
Definition answered (c : coro string) : coro EventResponse :=
  match c with
  | Finished (Ok t) => Finished (Ok (mkEventResponse t None))
  | Finished (Raise e) => Finished (Ok (failed e))
  | Cancelled msg => Cancelled msg
  | Pending => Pending
  end.

End Observe.

Import Observe.

(** ** Worked inputs *)

Module Samples.

Import Main.

Definition april_1 : date := mkdate 2025 4 1.

Definition request : EventRequest := mkEventRequest "jazz" "Blaine, MN".

Definition start : world := mkworld april_1 [].

(** The prompt for [request] on [april_1]. *)
Definition prompt : string :=
  render (mklocals "Blaine, MN" "jazz" 14 "April 01, 2025 and April 15, 2025")
         prompt_template.

(** Models that answer every prompt the same way. *)
Definition model_raising (e : exn) : GenerativeModel :=
  mkModel (fun _ _ => Raise e).

Definition model_returning (r : Response) : GenerativeModel :=
  mkModel (fun _ _ => Ok r).

Definition quota : exn := Exception "quota exceeded".


Definition blocked : Response :=
  mkResponse "GenerateContentResponse" [] (Some SAFETY) None.

Definition bare_text : Response :=
  mkResponse "GenerateContentResponse" [] (Some BLOCK_REASON_UNSPECIFIED)
             (Some "Found 2 events...").

Definition empty : Response :=
  mkResponse "GenerateContentResponse" [] None None.

End Samples.

(** ** gemini_service.py: the placeholder tools *)

Module Tools.

(** The values the tools' dictionaries hold; a [float] by the rational
    it stands for. *)
Inductive pyval : Type :=
| VStr (s : string)
| VInt (n : Z)
| VFloat (q : QArith_base.Q).

(** A [dict] with [str] keys, in insertion order. *)
Definition dict (V : Type) : Type := list (string * V).

(** [d.get(k)]: [None] when the key is missing. *)
Fixpoint dict_get {V : Type} (d : dict V) (k : string) : option V :=
  match d with
  | [] => None
  | (k', v) :: rest => if String.eqb k' k then Some v else dict_get rest k
  end.

(** [k in d]. *)
Definition dict_has {V : Type} (d : dict V) (k : string) : bool :=
  match dict_get d k with Some _ => true | None => false end.

(** Truth value of a [dict]: non-empty. *)
Definition dict_truthy {V : Type} (d : dict V) : bool :=
  match d with [] => false | _ :: _ => true end.

(** [str.lower()] and [str.upper()] on ASCII text: the letters A-Z and
    a-z change case, every other character stays.  (Text with other
    characters is outside what these two model.) *)
Definition lower_char (c : ascii) : ascii :=
  let n := nat_of_ascii c in
  if (65 <=? n)%nat && (n <=? 90)%nat then ascii_of_nat (n + 32) else c.

Definition upper_char (c : ascii) : ascii :=
  let n := nat_of_ascii c in
  if (97 <=? n)%nat && (n <=? 122)%nat then ascii_of_nat (n - 32) else c.

Fixpoint lower (s : string) : string :=
  match s with
  | EmptyString => EmptyString
  | String c rest => String (lower_char c) (lower rest)
  end.

Fixpoint upper (s : string) : string :=
  match s with
  | EmptyString => EmptyString
  | String c rest => String (upper_char c) (upper rest)
  end.

(** [s.isascii()]. *)
Fixpoint isascii (s : string) : bool :=
  match s with
  | EmptyString => true
  | String c rest => (nat_of_ascii c <? 128)%nat && isascii rest
  end.

Definition mock_db : dict (dict pyval) :=
  [ ("prod_123",
     [ ("name", VStr "Vintage Leather Jacket");
       ("price", VFloat (QArith_base.Qmake 85 1));
       ("condition", VStr "Used - Very Good");
       ("stock", VInt 1) ]);
    ("prod_456",
     [ ("name", VStr "Trek Mountain Bike");
       ("price", VFloat (QArith_base.Qmake 250 1));
       ("condition", VStr "Used - Good");
       ("stock", VInt 0) ]) ].

(** [_get_product_details_from_db]. *)
Definition _get_product_details_from_db (product_id : string) : dict pyval :=
  let details := dict_get mock_db product_id in
  match details with
  | Some d =>
      if dict_truthy d then d else [("error", VStr "Product ID not found")]
  | None => [("error", VStr "Product ID not found")]
  end.

Definition trends : dict (dict pyval) :=
  [ ("clothing",
     [ ("trend", VStr "Sustainable fabrics gaining popularity.");
       ("avg_price_range", VStr "$30-$150") ]);
    ("bikes",
     [ ("trend",
        VStr "E-bikes demand increasing, high-end models selling well.");
       ("avg_price_range", VStr "$200-$2000") ]);
    ("electronics",
     [ ("trend",
        VStr "Refurbished items offer good value, high demand for latest mobile tech.");
       ("avg_price_range", VStr "$50-$1000") ]) ].

(** [_lookup_market_trends]. *)
Definition _lookup_market_trends (category : string) : dict pyval :=
  let trend_info := dict_get trends (lower category) in
  match trend_info with
  | Some d =>
      if dict_truthy d then d
      else [("info",
             VStr "General market stable, specific trends unavailable.")]
  | None =>
      [("info", VStr "General market stable, specific trends unavailable.")]
  end.

End Tools.

(** ** Startup: [initialize_model] and [lifespan] *)

Module Startup.

Definition ValueError (msg : string) : exn := mkexn "ValueError" msg.

(** [os.environ] once [load_dotenv()] has run: [os.getenv(name)]. *)
Definition environ : Type := string -> option string.

(** The model library: [genai.configure(api_key=k)] and
    [genai.GenerativeModel(name, tools=[gemini_tools])], each of which
    may raise. *)
Record genai := mkgenai {
  configure : string -> outcome unit;
  new_GenerativeModel : string -> outcome GenerativeModel
}.

(** The calls made to the library, in order. *)
Inductive lib_call : Type :=
| Configure (api_key : string)
| NewModel (model_name : string).

(** [initialize_model], in gemini_service.py, with the calls it made. *)
Definition initialize_model (env : environ) (lib : genai)
  : outcome GenerativeModel * list lib_call :=
  let not_found : outcome GenerativeModel * list lib_call :=
    (Raise (ValueError
       "Gemini API key not found. Please set the GEMINI_API_KEY environment variable."),
     []) in
  match env "GEMINI_API_KEY" with
  | None => not_found
  | Some api_key =>
      if negb (Text.truthy api_key) then not_found
      else
        match configure lib api_key with
        | Raise e => (Raise e, [Configure api_key])
        | Ok _ =>
            let made :=
              [Configure api_key; NewModel "gemini-1.5-pro-latest"] in
            match new_GenerativeModel lib "gemini-1.5-pro-latest" with
            | Raise e => (Raise e, made)
            | Ok model => (Ok model, made)
            end
        end
  end.

(** The startup half of [lifespan], in main.py: the value of the global
    [gemini_model] when the application starts to serve.  The two
    handlers differ in what they print. *)
Definition lifespan_startup (env : environ) (lib : genai)
  : option GenerativeModel * list lib_call :=
  match initialize_model env lib with
  | (Ok model, made) => (Some model, made)
  | (Raise e, made) =>
      if String.eqb (exn_class e) "ValueError" then (None, made)
      else (None, made)
  end.

End Startup.

(** ** Shapes of a response *)

Module Shape.

(** The responses the handler answers without an error: parts and a
    [text], or no parts, no block reason and a non-empty [text]. *)
Definition usable (r : Response) : Prop :=
  (parts r <> [] /\ text r <> None) \/
  (parts r = [] /\ block_reason_truthy r = false /\
   exists t, text r = Some t /\ t <> EmptyString).

End Shape.

Import Shape.

(** * Properties *)

(** ** The calendar: ordinals against the rules of the calendar *)

Module CalendarFacts.

Lemma date_eqb_eq a b : date_eqb a b = true -> a = b.
Proof.
  destruct a as [y m d], b as [y' m' d']; unfold date_eqb; simpl.
  rewrite !andb_true_iff, !Z.eqb_eq. intros [[-> ->] ->]. reflexivity.
Qed.

Lemma valid_dateb_iff d : valid_dateb d = true <-> valid_date d.
Proof.
  unfold valid_dateb, valid_date.
  rewrite !andb_true_iff, !Z.leb_le. tauto.
Qed.

Lemma all_below_spec k : forall lo f,
  all_below k lo f = true ->
  forall z, lo <= z < lo + 2 ^ Z.of_nat k -> f z = true.
Proof.
  induction k as [|k IH]; intros lo f H z Hz.
  - simpl in *. replace z with lo by lia. exact H.
  - cbn [all_below] in H. apply andb_true_iff in H as [H1 H2].
    rewrite Nat2Z.inj_succ, Z.pow_succ_r in Hz by lia.
    destruct (Z_lt_ge_dec z (lo + 2 ^ Z.of_nat k)).
    + apply (IH _ _ H1). lia.
    + apply (IH _ _ H2). lia.
Qed.

Lemma all_in_spec k lo hi f :
  all_in k lo hi f = true -> hi < lo + 2 ^ Z.of_nat k ->
  forall z, lo <= z <= hi -> f z = true.
Proof.
  intros H Hk z Hz.
  assert (E : (if hi <? z then true else f z) = true)
    by (apply (all_below_spec _ _ _ H); lia).
  destruct (Z.ltb_spec hi z); [lia | exact E].
Qed.

Lemma is_leap_cycle y q : is_leap (y + 400 * q) = is_leap y.
Proof.
  unfold is_leap.
  replace ((y + 400 * q) mod 4) with (y mod 4)
    by (replace (y + 400 * q) with (y + (100 * q) * 4) by lia;
        now rewrite Z.mod_add).
  replace ((y + 400 * q) mod 100) with (y mod 100)
    by (replace (y + 400 * q) with (y + (4 * q) * 100) by lia;
        now rewrite Z.mod_add).
  replace ((y + 400 * q) mod 400) with (y mod 400)
    by (replace (y + 400 * q) with (y + q * 400) by lia;
        now rewrite Z.mod_add).
  reflexivity.
Qed.

Lemma days_before_year_cycle y q :
  days_before_year (y + 400 * q) = days_before_year y + DI400Y * q.
Proof.
  unfold days_before_year, DI400Y. cbv zeta.
  replace (y + 400 * q - 1) with (y - 1 + 400 * q) by lia.
  replace ((y - 1 + 400 * q) / 4) with ((y - 1) / 4 + 100 * q)
    by (replace (y - 1 + 400 * q) with (y - 1 + (100 * q) * 4) by lia;
        now rewrite Z.div_add).
  replace ((y - 1 + 400 * q) / 100) with ((y - 1) / 100 + 4 * q)
    by (replace (y - 1 + 400 * q) with (y - 1 + (4 * q) * 100) by lia;
        now rewrite Z.div_add).
  replace ((y - 1 + 400 * q) / 400) with ((y - 1) / 400 + q)
    by (replace (y - 1 + 400 * q) with (y - 1 + q * 400) by lia;
        now rewrite Z.div_add).
  lia.
Qed.

Lemma ymd2ord_cycle d q :
  ymd2ord (add_years (400 * q) d) = ymd2ord d + DI400Y * q.
Proof.
  unfold ymd2ord, add_years, days_before_month; cbn [year month day].
  rewrite days_before_year_cycle, is_leap_cycle. lia.
Qed.

Lemma ord2ymd_cycle r q :
  0 <= r < DI400Y ->
  ord2ymd (r + 1 + DI400Y * q) = add_years (400 * q) (ord2ymd (r + 1)).
Proof.
  intros Hr. unfold ord2ymd. cbv zeta. unfold DI400Y in *.
  replace (r + 1 + 146097 * q - 1) with (r + q * 146097) by lia.
  replace (r + 1 - 1) with r by lia.
  rewrite Z.div_add, Z.mod_add by lia.
  rewrite (Z.div_small r), (Z.mod_small r) by lia.
  repeat match goal with
         | |- context [if ?c then _ else _] => destruct c
         end;
    unfold add_years; cbn [year month day]; f_equal; lia.
Qed.

Lemma next_day_cycle d q :
  next_day (add_years (400 * q) d) = add_years (400 * q) (next_day d).
Proof.
  unfold next_day, add_years, days_in_month; cbn [year month day].
  rewrite is_leap_cycle.
  repeat match goal with
         | |- context [if ?c then _ else _] => destruct c
         end; simpl; f_equal; lia.
Qed.

Lemma first_cycle_steps : all_in 18 0 (DI400Y - 1) cycle_step_ok = true.
Proof. vm_cast_no_check (eq_refl true). Qed.

Lemma first_cycle_dates : all_in 9 1 400 cycle_date_ok = true.
Proof. vm_cast_no_check (eq_refl true). Qed.

Lemma cycle_step r :
  0 <= r < DI400Y ->
  ord2ymd (r + 2) = next_day (ord2ymd (r + 1)) /\
  ymd2ord (ord2ymd (r + 1)) = r + 1 /\
  valid_date (ord2ymd (r + 1)) /\
  year (ord2ymd (r + 1)) <= 400 /\
  (r < MAXORDINAL - 24 * DI400Y -> year (ord2ymd (r + 1)) <= 399).
Proof.
  intros Hr.
  assert (H : cycle_step_ok r = true).
  { apply (all_in_spec _ _ _ _ first_cycle_steps);
      unfold DI400Y in *; simpl; lia. }
  unfold cycle_step_ok in H. cbv zeta in H.
  rewrite !andb_true_iff, orb_true_iff, !Z.leb_le, Z.eqb_eq in H.
  destruct H as [[[[H1 H2] H3] H4] H5].
  apply date_eqb_eq in H1. apply valid_dateb_iff in H3.
  unfold valid_date, MINYEAR, MAXYEAR, MAXORDINAL, DI400Y in *.
  repeat split; try tauto; intros; lia.
Qed.

Lemma cycle_date d :
  valid_date d -> year d <= 400 ->
  ord2ymd (ymd2ord d) = d /\ 1 <= ymd2ord d <= DI400Y.
Proof.
  intros Hv Hy. pose proof Hv as Hv'.
  destruct Hv as (Hy' & Hm & Hd). unfold MINYEAR in Hy'.
  assert (H := all_in_spec _ _ _ _ first_cycle_dates).
  specialize (H ltac:(simpl; lia) (year d) ltac:(lia)).
  unfold cycle_date_ok in H.
  assert (H' := all_in_spec _ _ _ _ H ltac:(simpl; lia) (month d) Hm).
  cbv beta in H'.
  assert (Hd' : 1 <= day d <= 31).
  { unfold days_in_month in Hd.
    destruct ((month d =? 2) && is_leap (year d)); [lia|].
    unfold DAYS_IN_MONTH in Hd.
    destruct (month d) as [|[[[|[]|]|[[]|[]|]|]|[[|[]|]|[[]|[]|]|]|]|]; lia. }
  assert (H'' := all_in_spec _ _ _ _ H' ltac:(simpl; lia) (day d) Hd').
  cbv beta zeta in H''.
  replace (mkdate (year d) (month d) (day d)) with d in H''
    by (destruct d; reflexivity).
  apply valid_dateb_iff in Hv'. rewrite Hv' in H''.
  rewrite !andb_true_iff, !Z.leb_le in H''.
  destruct H'' as [[H1 H2] H3]. apply date_eqb_eq in H1. auto.
Qed.

Lemma add_years_add a b d : add_years a (add_years b d) = add_years (b + a) d.
Proof. unfold add_years; cbn [year month day]. f_equal. lia. Qed.

(** Every ordinal lies in one 400-year cycle. *)
Lemma ordinal_cycle o :
  exists q r, 0 <= r < DI400Y /\ o = r + 1 + DI400Y * q /\
              q = (o - 1) / DI400Y.
Proof.
  exists ((o - 1) / DI400Y), ((o - 1) mod DI400Y).
  unfold DI400Y.
  pose proof (Z.mod_pos_bound (o - 1) 146097 ltac:(lia)).
  pose proof (Z.div_mod (o - 1) 146097 ltac:(lia)).
  repeat split; lia.
Qed.

Lemma ord2ymd_cycle' r q :
  0 <= r < DI400Y ->
  ord2ymd (r + 2 + DI400Y * q) = add_years (400 * q) (ord2ymd (r + 2)).
Proof.
  intros Hr. destruct (Z.eq_dec (r + 1) DI400Y) as [E|E].
  - replace (r + 2 + DI400Y * q) with (0 + 1 + DI400Y * (q + 1)) by lia.
    replace (r + 2) with (0 + 1 + DI400Y * 1) by lia.
    rewrite !ord2ymd_cycle by (unfold DI400Y; lia).
    rewrite add_years_add. f_equal. lia.
  - replace (r + 2 + DI400Y * q) with (r + 1 + 1 + DI400Y * q) by lia.
    replace (r + 2) with (r + 1 + 1) by lia.
    apply ord2ymd_cycle. lia.
Qed.

(** The date of the next ordinal is the next day of the calendar. *)
Lemma ord2ymd_succ o : ord2ymd (o + 1) = next_day (ord2ymd o).
Proof.
  destruct (ordinal_cycle o) as (q & r & Hr & -> & _).
  replace (r + 1 + DI400Y * q + 1) with (r + 2 + DI400Y * q) by lia.
  rewrite ord2ymd_cycle', ord2ymd_cycle by exact Hr.
  rewrite next_day_cycle. f_equal. apply cycle_step, Hr.
Qed.

(** The ordinal of the date of an ordinal is that ordinal. *)
Lemma ymd2ord_ord2ymd o : ymd2ord (ord2ymd o) = o.
Proof.
  destruct (ordinal_cycle o) as (q & r & Hr & -> & _).
  rewrite ord2ymd_cycle, ymd2ord_cycle by exact Hr.
  destruct (cycle_step r Hr) as (_ & -> & _). reflexivity.
Qed.

Lemma valid_date_add_years d q :
  valid_date d -> MINYEAR <= year d + 400 * q <= MAXYEAR ->
  valid_date (add_years (400 * q) d).
Proof.
  unfold valid_date, add_years, days_in_month; cbn [year month day].
  rewrite is_leap_cycle. tauto.
Qed.

(** The ordinals of the dates a [date] can hold, and back. *)
Lemma valid_date_ord2ymd o :
  1 <= o <= MAXORDINAL -> valid_date (ord2ymd o).
Proof.
  intros Ho. destruct (ordinal_cycle o) as (q & r & Hr & E & Hq).
  assert (0 <= q <= 24).
  { subst q. unfold DI400Y, MAXORDINAL in *. split.
    - apply Z.div_pos; lia.
    - enough ((o - 1) / 146097 < 25) by lia.
      apply Z.div_lt_upper_bound; lia. }
  rewrite E, ord2ymd_cycle by exact Hr.
  destruct (cycle_step r Hr) as (_ & _ & Hv & H400 & H399).
  apply valid_date_add_years; [exact Hv|].
  destruct Hv as (Hy & _). unfold MINYEAR, MAXYEAR, MAXORDINAL, DI400Y in *.
  destruct (Z.eq_dec q 24); lia.
Qed.

(** A date is the date of its ordinal. *)
Lemma ord2ymd_ymd2ord d :
  valid_date d -> ord2ymd (ymd2ord d) = d /\ 1 <= ymd2ord d.
Proof.
  intros Hv.
  set (q := (year d - 1) / 400).
  set (d0 := mkdate ((year d - 1) mod 400 + 1) (month d) (day d)).
  assert (Ed : d = add_years (400 * q) d0).
  { unfold add_years, d0, q; cbn [year month day].
    pose proof (Z.div_mod (year d - 1) 400 ltac:(lia)).
    destruct d; cbn [year month day] in *. f_equal. lia. }
  assert (Hq : 0 <= q).
  { destruct Hv as (Hy & _). unfold MINYEAR in Hy.
    apply Z.div_pos; lia. }
  pose proof (Z.mod_pos_bound (year d - 1) 400 ltac:(lia)) as Hr.
  assert (Hv0 : valid_date d0).
  { rewrite Ed in Hv. unfold valid_date, add_years, days_in_month in *.
    cbn [year month day] in *. rewrite is_leap_cycle in Hv.
    unfold d0, MINYEAR, MAXYEAR in *; cbn [year month day]. 
    repeat split; try tauto; lia. }
  destruct (cycle_date d0 Hv0) as [H1 H2].
  { unfold d0; cbn [year]. lia. }
  rewrite Ed, ymd2ord_cycle.
  replace (ymd2ord d0 + DI400Y * q) with (ymd2ord d0 - 1 + 1 + DI400Y * q) by lia.
  rewrite ord2ymd_cycle by lia.
  replace (ymd2ord d0 - 1 + 1) with (ymd2ord d0) by lia.
  rewrite H1. split; [reflexivity|]. unfold DI400Y in *. nia.
Qed.

(** [date + timedelta] counts calendar days: when the result is a date
    at all, it is the date reached by going to the next day [n] times. *)
Lemma date_add_days_after d n :
  valid_date d -> 0 <= n -> ymd2ord d + n <= MAXORDINAL ->
  date_add d n = Ok (days_after (Z.to_nat n) d) /\
  valid_date (days_after (Z.to_nat n) d) /\
  ymd2ord (days_after (Z.to_nat n) d) = ymd2ord d + n.
Proof.
  intros Hv Hn Hmax.
  destruct (ord2ymd_ymd2ord d Hv) as [Hrt Hpos].
  assert (E : forall k : nat,
             ord2ymd (ymd2ord d + Z.of_nat k) = days_after k d).
  { induction k as [|k IH].
    - simpl. rewrite Z.add_0_r. exact Hrt.
    - rewrite Nat2Z.inj_succ.
      replace (ymd2ord d + Z.succ (Z.of_nat k))
        with (ymd2ord d + Z.of_nat k + 1) by lia.
      rewrite ord2ymd_succ, IH. reflexivity. }
  specialize (E (Z.to_nat n)). rewrite Z2Nat.id in E by exact Hn.
  rewrite <- E. unfold date_add. cbv zeta.
  replace ((0 <? ymd2ord d + n) && (ymd2ord d + n <=? MAXORDINAL)) with true.
  - split; [reflexivity|]. split.
    + apply valid_date_ord2ymd. lia.
    + apply ymd2ord_ord2ymd.
  - symmetry. apply andb_true_iff. split; [apply Z.ltb_lt | apply Z.leb_le]; lia.
Qed.

End CalendarFacts.

Import CalendarFacts.

(** ** Text: containment and counting *)

Module TextFacts.

Import Text.

Lemma append_assoc (a b c : string) : (a ++ b) ++ c = a ++ b ++ c.
Proof. induction a as [|x a IH]; simpl; [reflexivity | now rewrite IH]. Qed.

Lemma append_nil_r (a : string) : a ++ EmptyString = a.
Proof. induction a as [|x a IH]; simpl; [reflexivity | now rewrite IH]. Qed.

Lemma Contains_refl s : Contains s s.
Proof. exists EmptyString, EmptyString. simpl. now rewrite append_nil_r. Qed.

Lemma Contains_app_l n a b : Contains n a -> Contains n (a ++ b).
Proof.
  intros (pre & post & ->). exists pre, (post ++ b).
  now rewrite !append_assoc.
Qed.

Lemma Contains_app_r n a b : Contains n b -> Contains n (a ++ b).
Proof.
  intros (pre & post & ->). exists (a ++ pre), post.
  now rewrite !append_assoc.
Qed.

Lemma Contains_trans a b c : Contains a b -> Contains b c -> Contains a c.
Proof.
  intros (p1 & q1 & ->) (p2 & q2 & ->).
  exists (p2 ++ p1), (q1 ++ q2). now rewrite !append_assoc.
Qed.

Lemma prefix_app n b : prefix n (n ++ b) = true.
Proof.
  induction n as [|c n IH]; simpl; [destruct b; reflexivity|].
  destruct (ascii_dec c c); [exact IH | congruence].
Qed.

Lemma prefix_split n : forall h,
  prefix n h = true -> exists post, h = n ++ post.
Proof.
  induction n as [|c n IH]; intros h H.
  - exists h. reflexivity.
  - destruct h as [|c' h]; simpl in H; [discriminate|].
    destruct (ascii_dec c c') as [->|]; [|discriminate].
    destruct (IH _ H) as [post ->]. exists post. reflexivity.
Qed.

(** The executable test is sound for [Contains]. *)
Lemma contains_sound n : forall h, contains n h = true -> Contains n h.
Proof.
  induction h as [|c h IH]; intros H.
  - cbn [contains] in H. rewrite orb_false_r in H.
    destruct (prefix_split _ _ H) as [post E]. rewrite E.
    exists EmptyString, post. reflexivity.
  - cbn [contains] in H. apply orb_true_iff in H as [H|H].
    + destruct (prefix_split _ _ H) as [post E]. rewrite E.
      exists EmptyString, post. reflexivity.
    + destruct (IH H) as (pre & post & ->).
      exists (String c pre), post. reflexivity.
Qed.

Lemma occurrences_app_r n a b :
  (occurrences n b <= occurrences n (a ++ b))%nat.
Proof.
  induction a as [|c a IH]; simpl; [lia|].
  destruct n; simpl; try destruct (ascii_dec _ _); try destruct (prefix _ _); lia.
Qed.

Lemma occurrences_here n b :
  n <> EmptyString ->
  (S (occurrences n b) <= occurrences n (n ++ b))%nat.
Proof.
  intros Hn. destruct n as [|c n]; [congruence|].
  pose proof (prefix_app (String c n) b) as Hp.
  pose proof (occurrences_app_r (String c n) n b) as Hle.
  change (String c n ++ b) with (String c (n ++ b)) in *.
  cbn [occurrences]. rewrite Hp. lia.
Qed.

Lemma occurrences_three n a b c d :
  n <> EmptyString ->
  (3 <= occurrences n (a ++ n ++ b ++ n ++ c ++ n ++ d))%nat.
Proof.
  intros Hn.
  pose proof (occurrences_app_r n a (n ++ b ++ n ++ c ++ n ++ d)).
  pose proof (occurrences_here n (b ++ n ++ c ++ n ++ d) Hn).
  pose proof (occurrences_app_r n b (n ++ c ++ n ++ d)).
  pose proof (occurrences_here n (c ++ n ++ d) Hn).
  pose proof (occurrences_app_r n c (n ++ d)).
  pose proof (occurrences_here n d Hn).
  lia.
Qed.

End TextFacts.

Import Text TextFacts.

(** ** The text of a date *)

Module DateStyle.

Lemma years_from_1000 : all_in 14 1000 9999 year_format_ok = true.
Proof. vm_cast_no_check (eq_refl true). Qed.

(** From year 1000 on, [%Y] gives the four digits of the year. *)
Lemma fmt_yyyy_four_digits y :
  1000 <= y <= 9999 ->
  fmt_yyyy y =
    digit (y / 1000) ++ digit (y / 100) ++ digit (y / 10) ++ digit y.
Proof.
  intros Hy.
  assert (H : year_format_ok y = true)
    by (apply (all_in_spec _ _ _ _ years_from_1000); [simpl; lia | exact Hy]).
  unfold year_format_ok in H. now apply String.eqb_eq in H.
Qed.

(** From year 1000 on, a date is written in the "Month DD, YYYY"
    style. *)
Lemma strftime_month_dd_yyyy d :
  1000 <= year d <= 9999 -> strftime d = month_dd_yyyy d.
Proof.
  intros Hy. unfold strftime, month_dd_yyyy, fmt_dd.
  rewrite (fmt_yyyy_four_digits _ Hy).
  now rewrite !append_assoc.
Qed.

(** Before year 1000 it is not: the year then has fewer digits. *)
Lemma strftime_before_year_1000 :
  strftime (mkdate 999 12 31) = "December 31, 999" /\
  strftime (mkdate 999 12 31) <> month_dd_yyyy (mkdate 999 12 31).
Proof. split; [vm_compute; reflexivity | vm_compute; discriminate]. Qed.

Lemma year_next_day d : year d <= year (next_day d).
Proof.
  unfold next_day.
  destruct (day d <? days_in_month (year d) (month d));
    [|destruct (month d <? 12)]; cbn [year]; lia.
Qed.

(** Going on in the calendar does not go back in years. *)
Lemma year_days_after n d : year d <= year (days_after n d).
Proof.
  induction n as [|n IH]; cbn [days_after]; [lia|].
  pose proof (year_next_day (days_after n d)). lia.
Qed.

End DateStyle.

Import DateStyle.

(** ** The f-string *)

Module PromptFacts.

Lemma render_app l a b : render l (a ++ b) = render l a ++ render l b.
Proof.
  induction a as [|p a IH]; simpl; [reflexivity|].
  now rewrite IH, append_assoc.
Qed.

(** Any run of consecutive pieces of a template shows in its rendering. *)
Lemma render_slice l i n t :
  Contains (render l (firstn n (skipn i t))) (render l t).
Proof.
  rewrite <- (firstn_skipn i t) at 2.
  rewrite <- (firstn_skipn n (skipn i t)) at 2.
  rewrite !render_app.
  apply Contains_app_r, Contains_app_l, Contains_refl.
Qed.

Lemma prompt_slice l i n :
  Contains (render l (slice i n)) (render l prompt_template).
Proof. apply render_slice. Qed.

(** [build_prompt] gives a prompt exactly when the end date is a date,
    and then it is the template rendered with the two dates. *)
Lemma build_prompt_in_range loc interest days today :
  valid_date today -> 0 <= days -> ymd2ord today + days <= MAXORDINAL ->
  build_prompt loc interest days today =
    Ok (render
          (mklocals loc interest days
             (strftime today ++ " and " ++
              strftime (days_after (Z.to_nat days) today)))
          prompt_template).
Proof.
  intros Hv Hd Hr.
  destruct (ord2ymd_ymd2ord today Hv) as [_ Hpos].
  destruct (date_add_days_after today days Hv Hd Hr) as (Hadd & _).
  unfold build_prompt, timedelta.
  replace (Z.abs days <=? 999999999) with true
    by (symmetry; apply Z.leb_le; unfold MAXORDINAL in *; lia).
  rewrite Hadd. reflexivity.
Qed.

(** A template without the interest field renders the same whatever the
    interest. *)
Lemma render_ignores_interest loc i i' days dr t :
  field_count F_interest t = 0%nat ->
  render (mklocals loc i days dr) t = render (mklocals loc i' days dr) t.
Proof.
  unfold field_count. induction t as [|p t IH]; intros H; [reflexivity|].
  cbn [render]. destruct p as [s|[]]; cbn [filter field_eqb] in H;
    try discriminate; cbn [eval_piece eval_field]; f_equal; apply IH, H.
Qed.

(** The template, cut at its interest fields. *)
Lemma prompt_template_cut :
  prompt_template =
    (slice 0 16 ++ F F_interest :: slice 17 14 ++ F F_interest ::
     slice 32 20 ++ F F_interest :: slice 53 15)%list.
Proof. reflexivity. Qed.

End PromptFacts.

Import PromptFacts.

(** ** The handler *)

Module HandlerFacts.

Import Main.

(** Reading a response neither calls the model nor touches the clock. *)
Lemma handle_response_world r w : snd (handle_response r w) = w.
Proof.
  unfold handle_response, raise, lift.
  repeat match goal with
         | |- context [if ?c then _ else _] => destruct c
         end; reflexivity.
Qed.

(** The search, step by step: no call when the prompt cannot be built,
    else one call and the reading of its response. *)
Lemma find_local_events_via_search_run model loc interest days w :
  find_local_events_via_search model loc interest days w =
  match build_prompt loc interest
          (match days with Some n => n | None => 14 end) (clock w) with
  | Raise e => (Raise e, w)
  | Ok prompt =>
      let r := generate_content model (calls w) prompt in
      let w' := mkworld (clock w) (calls w ++ [(prompt, r)]) in
      match r with
      | Raise e => (Raise e, w')
      | Ok response => (fst (handle_response response w'), w')
      end
  end.
Proof.
  unfold find_local_events_via_search, bind, date_today, lift, try_except,
    call_generate_content, raise.
  destruct (build_prompt _ _ _ _) as [prompt|e]; [|reflexivity].
  cbv zeta. destruct (generate_content model (calls w) prompt)
    as [response|e]; [|reflexivity].
  pose proof (handle_response_world response
                (mkworld (clock w) (calls w ++ [(prompt, Ok response)]))) as E.
  destruct (handle_response response _) as [[t|e] w']; simpl in E |- *;
    now subst.
Qed.

(** An exception of a class that the hand-over from the worker thread
    does not single out is raised by the [await] as it is. *)
Lemma hand_over_plain {A} e :
  exn_class e <> futures_CancelledError ->
  exn_class e <> futures_InvalidStateError ->
  exn_class e <> "StopIteration" ->
  @hand_over A e = Finished (Raise e).
Proof.
  intros H1 H2 H3. unfold hand_over.
  destruct (String.eqb_spec (exn_class e) futures_CancelledError);
    [contradiction|].
  destruct (String.eqb_spec (exn_class e) futures_InvalidStateError);
    [contradiction|].
  destruct (String.eqb_spec (exn_class e) "StopIteration");
    [contradiction|reflexivity].
Qed.

(** An exception that is neither a [StopIteration] nor a
    [concurrent.futures.CancelledError] reaches the handler's [except]
    with the message it had. *)
Lemma answered_hand_over e :
  exn_class e <> "StopIteration" ->
  exn_class e <> futures_CancelledError ->
  answered (hand_over e) = Finished (Ok (failed e)).
Proof.
  intros H1 H2. unfold hand_over.
  destruct (String.eqb_spec (exn_class e) futures_CancelledError);
    [contradiction|].
  destruct (String.eqb_spec (exn_class e) futures_InvalidStateError);
    [reflexivity|].
  destruct (String.eqb_spec (exn_class e) "StopIteration");
    [contradiction|reflexivity].
Qed.

(** What [build_prompt] raises is an [OverflowError]. *)
Lemma build_prompt_raises loc interest days today e :
  build_prompt loc interest days today = Raise e ->
  exn_class e = "OverflowError".
Proof.
  unfold build_prompt, timedelta, date_add. cbv zeta.
  destruct (Z.abs days <=? 999999999);
    [destruct ((0 <? ymd2ord today + days) &&
               (ymd2ord today + days <=? MAXORDINAL))|];
    intros H; try discriminate; injection H as <-; reflexivity.
Qed.

(** What the reading of a response raises is caught by the handler. *)
Lemma answered_handle_response response w :
  answered (thread_result (fst (handle_response response w))) =
  match fst (handle_response response w) with
  | Ok t => Finished (Ok (mkEventResponse t None))
  | Raise e => Finished (Ok (failed e))
  end.
Proof.
  unfold handle_response, raise, lift, getattr_text.
  repeat match goal with
         | |- context [if ?c then _ else _] => destruct c
         | |- context [match text response with _ => _ end] =>
             destruct (text response)
         end; reflexivity.
Qed.

(** The handler in terms of the search it awaits. *)
Lemma find_events_api_awaits model req w :
  find_events_api (Some model) req w =
  (answered
     (thread_result
        (fst (find_local_events_via_search model (location req)
                (interest_description req) None w))),
   snd (find_local_events_via_search model (location req)
          (interest_description req) None w)).
Proof.
  unfold find_events_api, co_try_except, co_bind, co_ret, to_thread.
  destruct (find_local_events_via_search _ _ _ _ w) as [[t|e] w'];
    cbn [thread_result fst snd]; [reflexivity|].
  destruct (hand_over e) as [[t|e']| |]; reflexivity.
Qed.

(** The handler, step by step. *)
Lemma find_events_api_run model req w :
  find_events_api (Some model) req w =
  match build_prompt (location req) (interest_description req) 14
          (clock w) with
  | Raise e => (Finished (Ok (failed e)), w)
  | Ok prompt =>
      let r := generate_content model (calls w) prompt in
      let w' := mkworld (clock w) (calls w ++ [(prompt, r)]) in
      match r with
      | Raise e => (answered (hand_over e), w')
      | Ok response =>
          match fst (handle_response response w') with
          | Ok t => (Finished (Ok (mkEventResponse t None)), w')
          | Raise e => (Finished (Ok (failed e)), w')
          end
      end
  end.
Proof.
  rewrite find_events_api_awaits, find_local_events_via_search_run.
  destruct (build_prompt _ _ _ _) as [prompt|e] eqn:E.
  - cbv zeta. destruct (generate_content model (calls w) prompt)
      as [response|e]; cbn [fst snd thread_result]; [|reflexivity].
    rewrite answered_handle_response.
    destruct (fst (handle_response response _)); reflexivity.
  - cbn [fst snd thread_result].
    apply build_prompt_raises in E.
    rewrite answered_hand_over; [reflexivity | |];
      rewrite E; discriminate.
Qed.


(** When the handler's run made a call, the prompt was built and the
    model's answer to it is what came back. *)
Lemma external_call_inv model req w p r :
  external_call w (snd (find_events_api (Some model) req w)) p r ->
  build_prompt (location req) (interest_description req) 14 (clock w) = Ok p
  /\ generate_content model (calls w) p = r.
Proof.
  unfold external_call. rewrite find_events_api_run.
  destruct (build_prompt _ _ _ _) as [prompt|e].
  - cbv zeta. intros H.
    assert (E : (calls w ++
                 [(prompt, generate_content model (calls w) prompt)] =
                 calls w ++ [(p, r)])%list).
    { destruct (generate_content model (calls w) prompt) as [response|e];
        [destruct (fst (handle_response response _))|]; exact H. }
    apply app_inv_head in E. injection E as -> E. auto.
  - simpl. intros H. apply (f_equal (@List.length _)) in H.
    rewrite length_app in H. simpl in H. lia.
Qed.

(** The handler's answer once the call has come back with [r]. *)
Lemma find_events_api_after_call model req w p r :
  external_call w (snd (find_events_api (Some model) req w)) p r ->
  fst (find_events_api (Some model) req w) =
  match r with
  | Raise e => answered (hand_over e)
  | Ok response =>
      match fst (handle_response response
                   (mkworld (clock w) (calls w ++ [(p, r)]))) with
      | Ok t => Finished (Ok (mkEventResponse t None))
      | Raise e => Finished (Ok (failed e))
      end
  end.
Proof.
  intros H. destruct (external_call_inv _ _ _ _ _ H) as [Hp Hr].
  rewrite find_events_api_run, Hp. cbv zeta. rewrite Hr.
  destruct r as [response|e]; [|reflexivity].
  destruct (fst (handle_response response _)); reflexivity.
Qed.

Lemma prompts_sent_none w : prompts_sent w w = [].
Proof.
  unfold prompts_sent. rewrite <- length_map with (f := fst).
  apply skipn_all.
Qed.

Lemma prompts_sent_one w c p r :
  prompts_sent w (mkworld c (calls w ++ [(p, r)])) = [p].
Proof.
  unfold prompts_sent. cbn [calls]. rewrite map_app.
  rewrite <- length_map with (f := fst).
  rewrite skipn_app, skipn_all, Nat.sub_diag. reflexivity.
Qed.

(** What the search sends to the model is the prompt built from its
    arguments and the date, and nothing else. *)
Lemma prompts_sent_search model loc interest days w :
  prompts_sent w
    (snd (find_local_events_via_search model loc interest (Some days) w)) =
  match build_prompt loc interest days (clock w) with
  | Ok p => [p]
  | Raise _ => []
  end /\
  clock (snd (find_local_events_via_search model loc interest (Some days) w))
  = clock w.
Proof.
  rewrite find_local_events_via_search_run.
  destruct (build_prompt _ _ _ _) as [prompt|e].
  - cbv zeta. destruct (generate_content model (calls w) prompt);
      cbn [snd clock]; rewrite prompts_sent_one; auto.
  - cbn [snd]. rewrite prompts_sent_none. auto.
Qed.

End HandlerFacts.

Import HandlerFacts.

(** ** The request/response contract *)

Module Contract.

Import Main.




(** C2: without a model client the handler returns an empty
    [results_text] and the fixed error that begins "AI model is not
    available", and the hosted model is not called. *)
Theorem find_events_api_without_model req w :
  find_events_api None req w =
    (Finished
       (Ok (mkEventResponse EmptyString
              (Some "AI model is not available. Please check server logs or try again later."))),
     w) /\
  prefix "AI model is not available"
    "AI model is not available. Please check server logs or try again later."
    = true /\
  calls (snd (find_events_api None req w)) = calls w /\
  prompts_sent w (snd (find_events_api None req w)) = [].
Proof.
  repeat split. unfold prompts_sent. simpl.
  rewrite <- length_map with (f := fst). apply skipn_all.
Qed.

(** C5: when the call returns a response with empty parts and a block
    reason that is set, the handler returns an empty [results_text] and
    an [error] that contains the name of the block reason. *)
Theorem find_events_api_reports_block_reason model req w p response m :
  external_call w (snd (find_events_api (Some model) req w)) p (Ok response) ->
  parts response = [] ->
  block_reason response = Some m ->
  value m <> 0 ->
  fst (find_events_api (Some model) req w) =
    Finished
      (Ok (mkEventResponse EmptyString
             (Some ("Failed to find events: Content generation blocked. Reason: "
                    ++ name m)))) /\
  Contains (name m)
    ("Failed to find events: Content generation blocked. Reason: " ++ name m).
Proof.
  intros H Hparts Hbr Hv. split.
  - rewrite (find_events_api_after_call _ _ _ _ _ H).
    unfold handle_response, parts_truthy, block_reason_truthy.
    rewrite Hparts, Hbr.
    destruct (Z.eqb_spec (value m) 0); [contradiction | reflexivity].
  - apply Contains_app_r, Contains_refl.
Qed.

Lemma find_events_api_reports_block_reason_witness :
  fst (find_events_api (Some (Samples.model_returning Samples.blocked))
         Samples.request Samples.start) =
    Finished
      (Ok (mkEventResponse EmptyString
             (Some "Failed to find events: Content generation blocked. Reason: SAFETY"))) /\
  Contains "SAFETY"
    "Failed to find events: Content generation blocked. Reason: SAFETY".
Proof.
  apply (find_events_api_reports_block_reason
           (Samples.model_returning Samples.blocked) Samples.request
           Samples.start Samples.prompt Samples.blocked SAFETY).
  - reflexivity.
  - reflexivity.
  - reflexivity.
  - simpl. lia.
Defined.

(** C6: when the call returns a response with empty parts, no block
    reason, and a non-empty [text], the handler returns that text as
    [results_text], with no [error]. *)
Theorem find_events_api_falls_back_to_text model req w p response t :
  external_call w (snd (find_events_api (Some model) req w)) p (Ok response) ->
  parts response = [] ->
  block_reason_truthy response = false ->
  text response = Some t ->
  t <> EmptyString ->
  fst (find_events_api (Some model) req w) =
    Finished (Ok (mkEventResponse t None)).
Proof.
  intros H Hparts Hbr Ht Hne.
  rewrite (find_events_api_after_call _ _ _ _ _ H).
  unfold handle_response, parts_truthy, hasattr_text, getattr_text, lift.
  rewrite Hparts, Hbr, Ht.
  destruct t; [congruence | reflexivity].
Qed.

Lemma find_events_api_falls_back_to_text_witness :
  fst (find_events_api (Some (Samples.model_returning Samples.bare_text))
         Samples.request Samples.start) =
    Finished (Ok (mkEventResponse "Found 2 events..." None)).
Proof.
  apply (find_events_api_falls_back_to_text
           (Samples.model_returning Samples.bare_text) Samples.request
           Samples.start Samples.prompt Samples.bare_text
           "Found 2 events...").
  - reflexivity.
  - reflexivity.
  - reflexivity.
  - reflexivity.
  - discriminate.
Defined.

(** C7: when the call returns a response with empty parts, no block
    reason and no usable [text] (no such attribute, or an empty one),
    the handler returns an empty [results_text] and the error of an
    empty response. *)
Theorem find_events_api_reports_empty_response model req w p response :
  external_call w (snd (find_events_api (Some model) req w)) p (Ok response) ->
  parts response = [] ->
  block_reason_truthy response = false ->
  text response = None \/ text response = Some EmptyString ->
  fst (find_events_api (Some model) req w) =
    Finished
      (Ok (mkEventResponse EmptyString
             (Some "Failed to find events: Content generation failed. Received an empty response."))).
Proof.
  intros H Hparts Hbr Ht.
  rewrite (find_events_api_after_call _ _ _ _ _ H).
  unfold handle_response, parts_truthy, hasattr_text.
  rewrite Hparts, Hbr.
  destruct Ht as [-> | ->]; reflexivity.
Qed.

Lemma find_events_api_reports_empty_response_witness :
  fst (find_events_api (Some (Samples.model_returning Samples.empty))
         Samples.request Samples.start) =
    Finished
      (Ok (mkEventResponse EmptyString
             (Some "Failed to find events: Content generation failed. Received an empty response."))).
Proof.
  apply (find_events_api_reports_empty_response
           (Samples.model_returning Samples.empty) Samples.request
           Samples.start Samples.prompt Samples.empty).
  - reflexivity.
  - reflexivity.
  - reflexivity.
  - left. reflexivity.
Defined.

End Contract.

(** ** The prompt *)

Module Prompt.

Import Main.

(** C8: the prompt is a function of the location, the interest, the
    number of days and the current date alone: two runs with the same
    arguments on the same date send the same prompt text, whatever the
    model and whatever was sent before, and leave the date as it was. *)
Theorem prompt_depends_on_inputs_and_date_only
    loc interest days m1 m2 w1 w2 :
  clock w1 = clock w2 ->
  let w1' :=
    snd (find_local_events_via_search m1 loc interest (Some days) w1) in
  let w2' :=
    snd (find_local_events_via_search m2 loc interest (Some days) w2) in
  prompts_sent w1 w1' = prompts_sent w2 w2' /\
  prompts_sent w1 w1' =
    match build_prompt loc interest days (clock w1) with
    | Ok p => [p]
    | Raise _ => []
    end /\
  clock w1' = clock w1 /\ clock w2' = clock w2.
Proof.
  intros Hc w1' w2'.
  destruct (prompts_sent_search m1 loc interest days w1) as [H1 C1].
  destruct (prompts_sent_search m2 loc interest days w2) as [H2 C2].
  subst w1' w2'. rewrite H1, H2, C1, C2, Hc. auto.
Qed.

(** The same, for a second call made right after a first one. *)
Lemma prompt_twice_in_a_row loc interest days m w :
  let w' := snd (find_local_events_via_search m loc interest (Some days) w) in
  let w'' := snd (find_local_events_via_search m loc interest (Some days) w') in
  prompts_sent w' w'' = prompts_sent w w'.
Proof.
  intros w' w''.
  destruct (prompts_sent_search m loc interest days w) as [H1 C1].
  destruct (prompts_sent_search m loc interest days w') as [H2 C2].
  subst w' w''. rewrite H1, H2, C1. reflexivity.
Qed.

Lemma prompt_depends_on_inputs_and_date_only_witness :
  let w2 := mkworld Samples.april_1 [("earlier", Raise Samples.quota)] in
  prompts_sent Samples.start
    (snd (find_local_events_via_search (Samples.model_raising Samples.quota)
            "Blaine, MN" "jazz" (Some 14) Samples.start)) =
  prompts_sent w2
    (snd (find_local_events_via_search (Samples.model_returning Samples.empty)
            "Blaine, MN" "jazz" (Some 14) w2)).
Proof.
  intros w2.
  apply (prompt_depends_on_inputs_and_date_only "Blaine, MN" "jazz" 14
           (Samples.model_raising Samples.quota)
           (Samples.model_returning Samples.empty) Samples.start w2).
  reflexivity.
Defined.

(** C4: on 2025-04-01 with 14 days the end date is formatted as
    "April 15, 2025", and the prompt has "April 01, 2025" and
    "April 15, 2025" in it. *)
Theorem prompt_on_2025_04_01 loc interest :
  date_add (mkdate 2025 4 1) 14 = Ok (mkdate 2025 4 15) /\
  strftime (mkdate 2025 4 1) = "April 01, 2025" /\
  strftime (mkdate 2025 4 15) = "April 15, 2025" /\
  exists p,
    build_prompt loc interest 14 (mkdate 2025 4 1) = Ok p /\
    Contains "April 01, 2025" p /\ Contains "April 15, 2025" p.
Proof.
  assert (Hadd : date_add (mkdate 2025 4 1) 14 = Ok (mkdate 2025 4 15))
    by (vm_compute; reflexivity).
  repeat split; try exact Hadd.
  set (l := mklocals loc interest 14 "April 01, 2025 and April 15, 2025").
  exists (render l prompt_template). split.
  - unfold build_prompt. change (timedelta 14) with (@Ok Z 14).
    cbv beta iota. rewrite Hadd. reflexivity.
  - assert (Hr : Contains "April 01, 2025 and April 15, 2025"
                   (render l prompt_template)).
    { pose proof (prompt_slice l 11 1) as H.
      change (render l (slice 11 1))
        with ("April 01, 2025 and April 15, 2025" ++ EmptyString) in H.
      now rewrite append_nil_r in H. }
    split; (eapply Contains_trans; [|exact Hr]);
      apply contains_sound; vm_compute; reflexivity.
Qed.

(** C3, as the code has it: for a location, an interest, a positive
    number of days and a current date from year 1000 on whose end date
    is no later than 9999-12-31, the prompt contains the interest, the
    location, and the current date and the date that many calendar
    days later, both as "Month DD, YYYY". *)
Theorem build_prompt_contains_inputs_and_dates loc interest days today :
  valid_date today -> 1000 <= year today -> 0 < days ->
  ymd2ord today + days <= MAXORDINAL ->
  let end_date := days_after (Z.to_nat days) today in
  exists p,
    build_prompt loc interest days today = Ok p /\
    Contains interest p /\ Contains loc p /\
    Contains (strftime today) p /\ Contains (strftime end_date) p /\
    strftime today = month_dd_yyyy today /\
    strftime end_date = month_dd_yyyy end_date /\
    valid_date end_date /\ ymd2ord end_date = ymd2ord today + days.
Proof.
  intros Hv Hy Hd Hr end_date.
  destruct (date_add_days_after today days Hv ltac:(lia) Hr)
    as (_ & Hve & Hoe).
  set (dr := strftime today ++ " and " ++ strftime end_date).
  set (l := mklocals loc interest days dr).
  exists (render l prompt_template). split.
  { apply build_prompt_in_range; [exact Hv | lia | exact Hr]. }
  assert (Hdr : Contains dr (render l prompt_template)).
  { pose proof (prompt_slice l 11 1) as H.
    change (render l (slice 11 1)) with (dr ++ EmptyString) in H.
    now rewrite append_nil_r in H. }
  split; [|split; [|split; [|split; [|split; [|split;
    [|split; [exact Hve | exact Hoe]]]]]]].
  - pose proof (prompt_slice l 16 1) as H.
    change (render l (slice 16 1)) with (interest ++ EmptyString) in H.
    now rewrite append_nil_r in H.
  - pose proof (prompt_slice l 2 1) as H.
    change (render l (slice 2 1)) with (loc ++ EmptyString) in H.
    now rewrite append_nil_r in H.
  - eapply Contains_trans; [|exact Hdr].
    apply Contains_app_l, Contains_refl.
  - eapply Contains_trans; [|exact Hdr].
    apply Contains_app_r, Contains_app_r, Contains_refl.
  - apply strftime_month_dd_yyyy.
    destruct Hv as ((_ & Hmax) & _). unfold MAXYEAR in Hmax. lia.
  - apply strftime_month_dd_yyyy.
    pose proof (year_days_after (Z.to_nat days) today) as Hle.
    fold end_date in Hle, Hve.
    destruct Hve as ((_ & Hmax) & _). unfold MAXYEAR in Hmax. lia.
Qed.

Lemma build_prompt_contains_inputs_and_dates_witness :
  exists p,
    build_prompt "Blaine, MN" "jazz" 14 Samples.april_1 = Ok p /\
    Contains "jazz" p /\ Contains "Blaine, MN" p /\
    Contains (strftime Samples.april_1) p /\
    Contains (strftime (days_after 14 Samples.april_1)) p /\
    strftime Samples.april_1 = month_dd_yyyy Samples.april_1 /\
    strftime (days_after 14 Samples.april_1) =
      month_dd_yyyy (days_after 14 Samples.april_1) /\
    valid_date (days_after 14 Samples.april_1) /\
    ymd2ord (days_after 14 Samples.april_1) = ymd2ord Samples.april_1 + 14.
Proof.
  apply (build_prompt_contains_inputs_and_dates "Blaine, MN" "jazz" 14
           Samples.april_1).
  - apply valid_dateb_iff. reflexivity.
  - vm_compute. discriminate.
  - lia.
  - vm_compute. discriminate.
Defined.

(** C3 as stated fails: 4000000 is a positive number of days, and on
    2025-04-01 the end date is past the last date there is, so no prompt
    is produced. *)
Lemma build_prompt_end_date_out_of_range :
  valid_date (mkdate 2025 4 1) /\ 0 < 4000000 /\
  build_prompt "Blaine, MN" "jazz" 4000000 (mkdate 2025 4 1) =
    Raise (OverflowError "date value out of range") /\
  ~ exists p,
      build_prompt "Blaine, MN" "jazz" 4000000 (mkdate 2025 4 1) = Ok p.
Proof.
  assert (E : build_prompt "Blaine, MN" "jazz" 4000000 (mkdate 2025 4 1) =
              Raise (OverflowError "date value out of range"))
    by (vm_compute; reflexivity).
  split; [apply valid_dateb_iff; reflexivity|].
  split; [lia|]. split; [exact E|].
  intros [p Hp]. rewrite E in Hp. discriminate.
Qed.

(** C9 as stated fails: the prompt for "jazz" has the interest three
    times, not twice, as its template has three interest fields. *)
Lemma prompt_embeds_interest_not_twice :
  build_prompt "Blaine, MN" "jazz" 14 (mkdate 2025 4 1) = Ok Samples.prompt /\
  occurrences "jazz" Samples.prompt = 3%nat /\
  occurrences "jazz" Samples.prompt <> 2%nat /\
  field_count F_interest prompt_template <> 2%nat.
Proof.
  assert (E : occurrences "jazz" Samples.prompt = 3%nat)
    by (vm_compute; reflexivity).
  split; [vm_compute; reflexivity|]. split; [exact E|].
  split; [rewrite E; discriminate | vm_compute; discriminate].
Qed.

(** C9, as the code has it: the prompt embeds the interest three
    times, around texts that do not depend on it: as the user's stated
    interest, as the filter criterion, and in the sentence to give when
    nothing is found, which also has the location and the number of
    days. *)
Theorem prompt_embeds_interest_three_times loc days today :
  valid_date today -> 0 < days -> ymd2ord today + days <= MAXORDINAL ->
  field_count F_interest prompt_template = 3%nat /\
  exists s0 s1 s2 s3, forall interest,
    let p := s0 ++ interest ++ s1 ++ interest ++ s2 ++ interest ++ s3 in
    build_prompt loc interest days today = Ok p /\
    Contains ("    **User's Interest:** Find events related to " ++ dq ++
              interest ++ dq) p /\
    Contains ("    2.  Filter the search results to find events that strongly match the user's interest: "
              ++ dq ++ interest ++ dq) p /\
    Contains ("No specific events matching '" ++ interest ++
              "' were found in " ++ loc ++ " for the next " ++
              str_of_int days ++ " days.") p /\
    (interest <> EmptyString -> (3 <= occurrences interest p)%nat).
Proof.
  intros Hv Hd Hr. split; [reflexivity|].
  set (dr := strftime today ++ " and " ++
             strftime (days_after (Z.to_nat days) today)).
  set (l0 := mklocals loc EmptyString days dr).
  exists (render l0 (slice 0 16)), (render l0 (slice 17 14)),
         (render l0 (slice 32 20)), (render l0 (slice 53 15)).
  intros interest p.
  set (l := mklocals loc interest days dr).
  assert (Ep : render l prompt_template = p).
  { rewrite prompt_template_cut at 1.
    rewrite render_app. cbn [render eval_piece eval_field].
    rewrite render_app. cbn [render eval_piece eval_field].
    rewrite render_app. cbn [render eval_piece eval_field].
    unfold l, l0, p.
    rewrite !(render_ignores_interest loc interest EmptyString)
      by reflexivity.
    reflexivity. }
  split.
  { rewrite <- Ep. apply build_prompt_in_range; [exact Hv | lia | exact Hr]. }
  rewrite <- Ep.
  split; [|split; [|split]].
  - pose proof (prompt_slice l 14 4) as H.
    rewrite <- (append_nil_r dq) at 2. exact H.
  - pose proof (prompt_slice l 29 4) as H.
    rewrite <- (append_nil_r dq) at 2. exact H.
  - exact (prompt_slice l 51 7).
  - intros Hne. rewrite Ep. apply occurrences_three, Hne.
Qed.

Lemma prompt_embeds_interest_three_times_witness :
  field_count F_interest prompt_template = 3%nat /\
  exists s0 s1 s2 s3, forall interest,
    build_prompt "Blaine, MN" interest 14 Samples.april_1 =
      Ok (s0 ++ interest ++ s1 ++ interest ++ s2 ++ interest ++ s3).
Proof.
  destruct (prompt_embeds_interest_three_times "Blaine, MN" 14
              Samples.april_1) as (Hn & s0 & s1 & s2 & s3 & H).
  - apply valid_dateb_iff. reflexivity.
  - lia.
  - vm_compute. discriminate.
  - split; [exact Hn|]. exists s0, s1, s2, s3.
    intros interest. apply (H interest).
Defined.

(** C10: the request has no field for the number of days and the
    handler leaves the argument out, so the search runs with its
    default: the one prompt sent is the prompt for 14 days, whose window
    ends 14 days after the current date, whatever the request. *)
Theorem find_events_api_searches_14_days model req w :
  valid_date (clock w) -> ymd2ord (clock w) + 14 <= MAXORDINAL ->
  find_local_events_via_search model (location req)
      (interest_description req) None =
    find_local_events_via_search model (location req)
      (interest_description req) (Some 14) /\
  exists p,
    prompts_sent w (snd (find_events_api (Some model) req w)) = [p] /\
    build_prompt (location req) (interest_description req) 14 (clock w)
      = Ok p /\
    Contains ("    **Timeframe:** Events happening between " ++
              strftime (clock w) ++ " and " ++
              strftime (days_after 14 (clock w)) ++ ".") p /\
    Contains " for the next 14 days." p /\
    ymd2ord (days_after 14 (clock w)) = ymd2ord (clock w) + 14.
Proof.
  intros Hv Hr. split; [reflexivity|].
  destruct (date_add_days_after (clock w) 14 Hv ltac:(lia) Hr)
    as (_ & _ & Hoe).
  pose proof (build_prompt_in_range (location req) (interest_description req)
                14 (clock w) Hv ltac:(lia) Hr) as Hp.
  change (Z.to_nat 14) with 14%nat in Hp, Hoe.
  set (l := mklocals _ _ _ _) in Hp.
  exists (render l prompt_template).
  split; [|split; [exact Hp|split; [|split; [|exact Hoe]]]].
  - rewrite find_events_api_run, Hp. cbv zeta.
    destruct (generate_content model _ _) as [response|e];
      [destruct (fst (handle_response response _))|];
      cbn [snd]; apply prompts_sent_one.
  - pose proof (prompt_slice l 10 3) as H.
    change (render l (slice 10 3))
      with ("    **Timeframe:** Events happening between " ++
            (strftime (clock w) ++ " and " ++
             strftime (days_after 14 (clock w))) ++ ".") in H.
    now rewrite !append_assoc in H.
  - exact (prompt_slice l 55 3).
Qed.

Lemma find_events_api_searches_14_days_witness :
  exists p,
    prompts_sent Samples.start
      (snd (find_events_api (Some (Samples.model_returning Samples.empty))
              Samples.request Samples.start)) = [p] /\
    Contains "    **Timeframe:** Events happening between April 01, 2025 and April 15, 2025." p /\
    Contains " for the next 14 days." p.
Proof.
  destruct (find_events_api_searches_14_days
              (Samples.model_returning Samples.empty) Samples.request
              Samples.start) as (_ & p & H1 & _ & H2 & H3 & _).
  - apply valid_dateb_iff. reflexivity.
  - vm_compute. discriminate.
  - exists p. split; [exact H1|]. split; [exact H2 | exact H3].
Defined.

End Prompt.

(** ** More on the calendar *)

Module CalendarBounds.

Lemma days_before_month_day y m d :
  1 <= m <= 12 -> 1 <= d <= days_in_month y m ->
  days_before_month y m + d <= 365 + (if is_leap y then 1 else 0).
Proof.
  intros Hm Hd. unfold days_before_month, days_in_month in *.
  assert (Hc : m = 1 \/ m = 2 \/ m = 3 \/ m = 4 \/ m = 5 \/ m = 6 \/
               m = 7 \/ m = 8 \/ m = 9 \/ m = 10 \/ m = 11 \/ m = 12)
    by lia.
  destruct (is_leap y);
    decompose [or] Hc; subst m;
    cbv beta iota delta [DAYS_BEFORE_MONTH DAYS_IN_MONTH Z.eqb Z.ltb
                         Z.compare Pos.compare Pos.compare_cont Pos.eqb andb]
      in Hd |- *; lia.
Qed.

(** The ordinal of a date is at most that of 9999-12-31. *)
Lemma ymd2ord_max d : valid_date d -> ymd2ord d <= MAXORDINAL.
Proof.
  intros (Hy & Hm & Hd). unfold MINYEAR, MAXYEAR in Hy.
  pose proof (days_before_month_day _ _ _ Hm Hd) as Hb.
  unfold ymd2ord, MAXORDINAL.
  destruct (Z.eq_dec (year d) 9999) as [E|E].
  - rewrite E in *. change (is_leap 9999) with false in Hb.
    change (days_before_year 9999) with 3651694. cbv iota in Hb. lia.
  - unfold days_before_year. cbv zeta.
    assert ((year d - 1) / 4 < 2500)
      by (apply Z.div_lt_upper_bound; lia).
    assert (0 <= (year d - 1) / 100) by (apply Z.div_pos; lia).
    assert ((year d - 1) / 400 < 25)
      by (apply Z.div_lt_upper_bound; lia).
    destruct (is_leap (year d)); lia.
Qed.

(** [date + timedelta] for any number of days, forwards or backwards:
    a date whose ordinal is that many away, when there is one. *)
Lemma date_add_ordinal d n :
  valid_date d -> 0 < ymd2ord d + n <= MAXORDINAL ->
  exists e, date_add d n = Ok e /\ valid_date e /\
            ymd2ord e = ymd2ord d + n.
Proof.
  intros Hv Hr. exists (ord2ymd (ymd2ord d + n)).
  unfold date_add. cbv zeta.
  replace ((0 <? ymd2ord d + n) && (ymd2ord d + n <=? MAXORDINAL)) with true
    by (symmetry; apply andb_true_iff; split;
        [apply Z.ltb_lt | apply Z.leb_le]; lia).
  split; [reflexivity|]. split.
  - apply valid_date_ord2ymd. lia.
  - apply ymd2ord_ord2ymd.
Qed.

(** Going back [n] days and then [n] calendar days on gives the date
    one started from. *)
Lemma date_add_back d n e :
  valid_date d -> 0 <= n -> date_add d (- n) = Ok e ->
  valid_date e /\ days_after (Z.to_nat n) e = d.
Proof.
  intros Hv Hn H.
  pose proof (ymd2ord_max d Hv) as Hmax.
  assert (Hr : 0 < ymd2ord d + - n).
  { unfold date_add in H. cbv zeta in H.
    destruct (Z.ltb_spec 0 (ymd2ord d + - n)); [assumption|].
    discriminate. }
  destruct (date_add_ordinal d (- n) Hv ltac:(lia)) as (e' & He & Hve & Ho).
  rewrite He in H. injection H as <-. clear He.
  split; [exact Hve|].
  destruct (date_add_days_after e' n Hve Hn ltac:(lia)) as (Ha & _ & _).
  assert (Hd : date_add e' n = Ok d).
  { unfold date_add. cbv zeta. rewrite Ho.
    replace (ymd2ord d + - n + n) with (ymd2ord d) by lia.
    destruct (ord2ymd_ymd2ord d Hv) as [-> Hpos].
    replace ((0 <? ymd2ord d) && (ymd2ord d <=? MAXORDINAL)) with true;
      [reflexivity|].
    symmetry. apply andb_true_iff.
    split; [apply Z.ltb_lt | apply Z.leb_le]; lia. }
  rewrite Ha in Hd. injection Hd as Hd. exact Hd.
Qed.

(** A date on or after 1000-01-01 has a year of four digits. *)
Lemma year_from_1000 e :
  valid_date e -> ymd2ord (mkdate 1000 1 1) <= ymd2ord e -> 1000 <= year e.
Proof.
  intros Hve Ho.
  set (d0 := mkdate 1000 1 1) in *.
  assert (Hv0 : valid_date d0) by (apply valid_dateb_iff; reflexivity).
  pose proof (ymd2ord_max e Hve) as Hmax.
  destruct (date_add_days_after d0 (ymd2ord e - ymd2ord d0) Hv0
              ltac:(lia) ltac:(lia)) as (_ & Hv1 & Ho1).
  set (e' := days_after (Z.to_nat (ymd2ord e - ymd2ord d0)) d0) in *.
  assert (E : e' = e).
  { destruct (ord2ymd_ymd2ord e Hve) as [<- _].
    destruct (ord2ymd_ymd2ord e' Hv1) as [<- _].
    f_equal. lia. }
  rewrite <- E.
  apply (year_days_after (Z.to_nat (ymd2ord e - ymd2ord d0)) d0).
Qed.

End CalendarBounds.

(** ** More on the prompt *)

Module PromptMore.

Import CalendarBounds.

(** The prompt exists exactly when the number of days fits a
    [timedelta] and the end date is a date; otherwise what is raised is
    an [OverflowError]. *)
Theorem build_prompt_ok_iff loc interest days today :
  ((exists p, build_prompt loc interest days today = Ok p) <->
   Z.abs days <= 999999999 /\ 0 < ymd2ord today + days <= MAXORDINAL) /\
  (forall e, build_prompt loc interest days today = Raise e ->
             exn_class e = "OverflowError").
Proof.
  unfold build_prompt, timedelta, date_add. cbv zeta.
  destruct (Z.leb_spec (Z.abs days) 999999999) as [Ha|Ha].
  - destruct (Z.ltb_spec 0 (ymd2ord today + days)) as [H1|H1];
      [destruct (Z.leb_spec (ymd2ord today + days) MAXORDINAL) as [H2|H2]|];
      cbn [andb]; (split; [split|]).
    + intros _. lia.
    + intros _. eexists. reflexivity.
    + intros e H. discriminate.
    + intros [p H]. discriminate.
    + intros. lia.
    + intros e H. injection H as <-. reflexivity.
    + intros [p H]. discriminate.
    + intros. lia.
    + intros e H. injection H as <-. reflexivity.
  - split; [split|].
    + intros [p H]. discriminate.
    + intros. lia.
    + intros e H. injection H as <-. reflexivity.
Qed.

(** A number of days that is zero or negative is not refused: when
    the date that many days back is not before 1000-01-01, the prompt
    is built with that date as its "end" date (the current date for
    zero), written like the current date, and with the number as it is
    in the sentence for no results. *)
Theorem build_prompt_days_not_positive loc interest days today :
  valid_date today -> days <= 0 ->
  ymd2ord (mkdate 1000 1 1) <= ymd2ord today + days ->
  exists p e,
    build_prompt loc interest days today = Ok p /\
    valid_date e /\ 1000 <= year e /\
    days_after (Z.to_nat (- days)) e = today /\
    Contains ("    **Timeframe:** Events happening between " ++
              strftime today ++ " and " ++ strftime e ++ ".") p /\
    strftime today = month_dd_yyyy today /\
    strftime e = month_dd_yyyy e /\
    Contains (" for the next " ++ str_of_int days ++ " days.") p.
Proof.
  intros Hv Hd Hr.
  assert (H0 : 0 < ymd2ord (mkdate 1000 1 1)) by (vm_compute; reflexivity).
  pose proof (ymd2ord_max today Hv) as Hmax.
  destruct (date_add_ordinal today days Hv ltac:(lia))
    as (e & He & _ & Hoe).
  assert (Hback : date_add today (- (- days)) = Ok e)
    by (now rewrite Z.opp_involutive).
  destruct (date_add_back today (- days) e Hv ltac:(lia) Hback)
    as [Hve Hafter].
  assert (Hye : 1000 <= year e) by (apply year_from_1000; [exact Hve | lia]).
  assert (Hyt : 1000 <= year today).
  { pose proof (year_days_after (Z.to_nat (- days)) e) as Hle.
    rewrite Hafter in Hle. lia. }
  set (l := mklocals loc interest days
              (strftime today ++ " and " ++ strftime e)).
  exists (render l prompt_template), e.
  split; [|split; [exact Hve|split; [exact Hye|split; [exact Hafter|
    split; [|split; [|split]]]]]].
  - unfold build_prompt, timedelta.
    replace (Z.abs days <=? 999999999) with true
      by (symmetry; apply Z.leb_le; unfold MAXORDINAL in *; lia).
    rewrite He. reflexivity.
  - pose proof (prompt_slice l 10 3) as H.
    change (render l (slice 10 3))
      with ("    **Timeframe:** Events happening between " ++
            (strftime today ++ " and " ++ strftime e) ++ ".") in H.
    now rewrite !append_assoc in H.
  - apply strftime_month_dd_yyyy.
    destruct Hv as ((_ & Hm) & _). unfold MAXYEAR in Hm. lia.
  - apply strftime_month_dd_yyyy.
    destruct Hve as ((_ & Hm) & _). unfold MAXYEAR in Hm. lia.
  - exact (prompt_slice l 55 3).
Qed.

Lemma build_prompt_days_not_positive_witness :
  exists p e,
    build_prompt "Blaine, MN" "jazz" (-3) (mkdate 2025 3 2) = Ok p /\
    valid_date e /\ 1000 <= year e /\
    days_after 3 e = mkdate 2025 3 2 /\
    Contains ("    **Timeframe:** Events happening between " ++
              "March 02, 2025" ++ " and " ++ strftime e ++ ".") p /\
    strftime (mkdate 2025 3 2) = month_dd_yyyy (mkdate 2025 3 2) /\
    strftime e = month_dd_yyyy e /\
    Contains " for the next -3 days." p.
Proof.
  apply (build_prompt_days_not_positive "Blaine, MN" "jazz" (-3)
           (mkdate 2025 3 2)).
  - apply valid_dateb_iff. reflexivity.
  - lia.
  - vm_compute. discriminate.
Defined.

(** [location.split(',')[0]]: the location up to its first comma. *)
Lemma split_head_spec sep s :
  exists rest,
    s = split_head sep s ++ rest /\
    (rest = EmptyString \/ exists rest', rest = String sep rest') /\
    ~ Contains (String sep EmptyString) (split_head sep s).
Proof.
  induction s as [|c s (rest & E & Hrest & Hno)].
  - exists EmptyString. repeat split; [now left|].
    intros ([|? ?] & post & H); discriminate.
  - cbn [split_head]. destruct (Ascii.eqb_spec c sep) as [->|Hne].
    + exists (String sep s). repeat split; [right; eauto|].
      intros ([|? ?] & post & H); discriminate.
    + exists rest. split; [cbn; now rewrite <- E|]. split; [exact Hrest|].
      intros ([|c' pre] & post & H).
      * cbn in H. injection H as H _. congruence.
      * cbn in H. injection H as _ H. apply Hno. now exists pre, post.
Qed.

(** The city named in the prompt is the location up to its first comma:
    the location is that city, alone or followed by a comma and more,
    the city has no comma in it, and the prompt asks for the website
    of that city. *)
Theorem prompt_names_city loc interest days dr :
  let city := split_head comma loc in
  let p := render (mklocals loc interest days dr) prompt_template in
  (exists rest,
     loc = city ++ rest /\
     (rest = EmptyString \/ exists rest', rest = "," ++ rest')) /\
  ~ Contains "," city /\
  (~ Contains "," loc -> city = loc) /\
  Contains ("city websites (" ++ city ++ " city website)") p.
Proof.
  intros city p.
  destruct (split_head_spec comma loc) as (rest & E & Hrest & Hno).
  fold city in E, Hno.
  split; [exists rest; split; [exact E | exact Hrest]|].
  split; [exact Hno|]. split.
  - intros Hnc. destruct Hrest as [-> | [rest' ->]].
    + now rewrite append_nil_r in E.
    + exfalso. apply Hnc. exists city, rest'. exact E.
  - pose proof (prompt_slice (mklocals loc interest days dr) 23 3) as H.
    fold p in H. eapply Contains_trans; [|exact H].
    exists "    1.  **Use your web search capability extensively** to scan local news sites, ",
      ", community calendars, park districts, libraries, Facebook events (if accessible), Eventbrite, and other relevant online sources for ".
    rewrite !append_assoc. reflexivity.
Qed.

Lemma field_eqb_refl f : field_eqb f f = true.
Proof. destruct f; reflexivity. Qed.

(** A replacement field shows in the rendered text at least as many
    times as the template has it. *)
Lemma occurrences_field l f t :
  eval_field l f <> EmptyString ->
  (field_count f t <= occurrences (eval_field l f) (render l t))%nat.
Proof.
  intros Hne. unfold field_count.
  induction t as [|p t IH]; [cbn; lia|].
  cbn [render filter].
  destruct p as [s|g].
  - cbn [eval_piece].
    pose proof (occurrences_app_r (eval_field l f) s (render l t)). lia.
  - destruct (field_eqb f g) eqn:E.
    + assert (g = f) as -> by (destruct f, g; (reflexivity || discriminate)).
      cbn [eval_piece List.length].
      pose proof (occurrences_here (eval_field l f) (render l t) Hne). lia.
    + cbn [eval_piece].
      pose proof (occurrences_app_r (eval_field l f) (eval_field l g)
                    (render l t)). lia.
Qed.

(** The location is in the prompt at least four times and the number
    of days, as text, at least once; more generally each field of the
    f-string whose value is not empty is there at least as often as the
    f-string has it. *)
Theorem prompt_repeats_fields loc interest days dr :
  let l := mklocals loc interest days dr in
  let p := render l prompt_template in
  (forall f, eval_field l f <> EmptyString ->
             (field_count f prompt_template <= occurrences (eval_field l f) p)%nat) /\
  (loc <> EmptyString -> (4 <= occurrences loc p)%nat) /\
  (1 <= occurrences (str_of_int days) p)%nat /\
  (dr <> EmptyString -> (1 <= occurrences dr p)%nat).
Proof.
  intros l p.
  assert (G : forall f, eval_field l f <> EmptyString ->
     (field_count f prompt_template <= occurrences (eval_field l f) p)%nat)
    by (intros f Hf; apply occurrences_field, Hf).
  split; [exact G|]. split; [|split].
  - intros Hne. exact (G F_location Hne).
  - apply (G F_days). cbn [eval_field]. unfold str_of_int.
    destruct (Z.to_int _) as [d|d]; destruct d; discriminate.
  - intros Hne. exact (G F_date_range Hne).
Qed.

End PromptMore.

(** ** More on the handler *)

Module HandlerMore.

Import Main CalendarBounds.

(** What reading a response gives does not depend on the world. *)
Lemma handle_response_fst r w1 w2 :
  fst (handle_response r w1) = fst (handle_response r w2).
Proof.
  unfold handle_response, raise, lift.
  repeat match goal with
         | |- context [if ?c then _ else _] => destruct c
         end; reflexivity.
Qed.

(** When the call returns a response with parts and a [text], the
    handler returns that text and no error, whether or not the text is
    empty and whatever the block reason says. *)
Theorem find_events_api_returns_text model req w p response t :
  external_call w (snd (find_events_api (Some model) req w)) p (Ok response) ->
  parts response <> [] ->
  text response = Some t ->
  fst (find_events_api (Some model) req w) =
    Finished (Ok (mkEventResponse t None)).
Proof.
  intros H Hparts Ht.
  rewrite (find_events_api_after_call _ _ _ _ _ H).
  unfold handle_response, parts_truthy, getattr_text, lift.
  destruct (parts response); [congruence|]. rewrite Ht. reflexivity.
Qed.

Lemma find_events_api_returns_text_witness :
  fst (find_events_api
         (Some (Samples.model_returning
                  (mkResponse "GenerateContentResponse" ["Found 2 events..."]
                     (Some SAFETY) (Some "Found 2 events..."))))
         Samples.request Samples.start) =
    Finished (Ok (mkEventResponse "Found 2 events..." None)).
Proof.
  apply (find_events_api_returns_text _ Samples.request Samples.start
           Samples.prompt
           (mkResponse "GenerateContentResponse" ["Found 2 events..."]
              (Some SAFETY) (Some "Found 2 events..."))
           "Found 2 events...").
  - reflexivity.
  - discriminate.
  - reflexivity.
Defined.

(** When the call returns a response with parts but no [text]
    attribute, the [AttributeError] of reading it is caught like any
    other: empty [results_text] and its message as the error. *)
Theorem find_events_api_text_attribute_missing model req w p response :
  external_call w (snd (find_events_api (Some model) req w)) p (Ok response) ->
  parts response <> [] ->
  text response = None ->
  fst (find_events_api (Some model) req w) =
    Finished
      (Ok (mkEventResponse EmptyString
             (Some ("Failed to find events: '" ++ type_name response ++
                    "' object has no attribute 'text'")))).
Proof.
  intros H Hparts Ht.
  rewrite (find_events_api_after_call _ _ _ _ _ H).
  unfold handle_response, parts_truthy, getattr_text, lift.
  destruct (parts response); [congruence|]. rewrite Ht. reflexivity.
Qed.

Lemma find_events_api_text_attribute_missing_witness :
  fst (find_events_api
         (Some (Samples.model_returning
                  (mkResponse "Reply" ["Found 2 events..."] None None)))
         Samples.request Samples.start) =
    Finished
      (Ok (mkEventResponse EmptyString
             (Some "Failed to find events: 'Reply' object has no attribute 'text'"))).
Proof.
  apply (find_events_api_text_attribute_missing _ Samples.request
           Samples.start Samples.prompt
           (mkResponse "Reply" ["Found 2 events..."] None None)).
  - reflexivity.
  - discriminate.
  - reflexivity.
Defined.

(** Once the call has returned a response, the handler's answer has no
    error exactly when the response is usable, and then its
    [results_text] is the response's [text]. *)
Theorem find_events_api_succeeds_iff model req w p response :
  external_call w (snd (find_events_api (Some model) req w)) p (Ok response) ->
  exists resp,
    fst (find_events_api (Some model) req w) = Finished (Ok resp) /\
    (error resp = None <-> usable response) /\
    (error resp = None -> text response = Some (results_text resp)).
Proof.
  intros H. rewrite (find_events_api_after_call _ _ _ _ _ H).
  unfold usable, handle_response, parts_truthy, block_reason_truthy,
    hasattr_text, getattr_text, lift, raise.
  destruct response as [tn ps br tx]; cbn [parts block_reason text type_name].
  destruct ps as [|part ps]; cbn [negb].
  - destruct br as [m|]; [destruct (value m =? 0)|]; cbn [negb];
      try (destruct tx as [[|c t]|]); cbn [Text.truthy andb fst];
      eexists; (split; [reflexivity|]); cbn [error results_text];
      (split; [split|]); try discriminate; try reflexivity;
      try (intros _; right; repeat split; eexists; split;
           [reflexivity | discriminate]);
      try (intros [[Hc _]|(_ & Hc & _)]; congruence);
      try (intros [[Hc _]|(_ & _ & t' & Hc & Hne)]; congruence).
  - destruct tx as [t|]; cbn [fst]; eexists; (split; [reflexivity|]);
      cbn [error results_text]; (split; [split|]);
      try discriminate; try reflexivity.
    + intros _. left. split; discriminate.
    + intros [[_ Hc]|[Hc _]]; congruence.
Qed.

Lemma find_events_api_succeeds_iff_witness :
  exists resp,
    fst (find_events_api (Some (Samples.model_returning Samples.bare_text))
           Samples.request Samples.start) = Finished (Ok resp) /\
    (error resp = None <-> usable Samples.bare_text) /\
    (error resp = None -> text Samples.bare_text = Some (results_text resp)).
Proof.
  apply (find_events_api_succeeds_iff
           (Samples.model_returning Samples.bare_text) Samples.request
           Samples.start Samples.prompt Samples.bare_text).
  reflexivity.
Defined.



(** A request makes at most one call to the hosted model, never a
    second one, also after a failure; the calls made before stay as
    they were and the clock is not touched.  The call is made with the
    prompt for 14 days. *)
Theorem find_events_api_calls_at_most_once gemini_model req w :
  let w' := snd (find_events_api gemini_model req w) in
  clock w' = clock w /\
  (calls w' = calls w \/
   exists model p,
     gemini_model = Some model /\
     build_prompt (location req) (interest_description req) 14 (clock w)
       = Ok p /\
     calls w' = (calls w ++ [(p, generate_content model (calls w) p)])%list).
Proof.
  destruct gemini_model as [model|]; [|cbn; auto].
  cbv zeta. rewrite find_events_api_run.
  destruct (build_prompt _ _ _ _) as [prompt|e] eqn:E; [|cbn; auto].
  cbv zeta.
  assert (G : forall x : coro EventResponse,
    let w' := mkworld (clock w)
                (calls w ++
                 [(prompt, generate_content model (calls w) prompt)]) in
    clock (snd (x, w')) = clock w /\
    (calls (snd (x, w')) = calls w \/
     exists model0 p, Some model = Some model0 /\ Ok prompt = Ok p /\
       calls (snd (x, w')) =
         (calls w ++ [(p, generate_content model0 (calls w) p)])%list)).
  { intros x. cbn. split; [reflexivity|]. right.
    exists model, prompt. auto. }
  destruct (generate_content model (calls w) prompt) as [response|e']
    eqn:Eg.
  - destruct (fst (handle_response response _)); apply G.
  - apply G.
Qed.

(** When the date 14 days after the current one is past 9999-12-31,
    the handler calls nothing and answers with the error of the date
    arithmetic. *)
Theorem find_events_api_end_of_calendar model req w :
  valid_date (clock w) -> MAXORDINAL < ymd2ord (clock w) + 14 ->
  find_events_api (Some model) req w =
    (Finished
       (Ok (mkEventResponse EmptyString
              (Some "Failed to find events: date value out of range"))), w).
Proof.
  intros Hv Hr. rewrite find_events_api_run.
  unfold build_prompt, date_add. cbv zeta.
  change (timedelta 14) with (@Ok Z 14). cbv beta iota.
  replace (ymd2ord (clock w) + 14 <=? MAXORDINAL) with false
    by (symmetry; apply Z.leb_gt; lia).
  rewrite andb_false_r. reflexivity.
Qed.

Lemma find_events_api_end_of_calendar_witness :
  find_events_api (Some (Samples.model_returning Samples.bare_text))
    Samples.request (mkworld (mkdate 9999 12 25) []) =
    (Finished
       (Ok (mkEventResponse EmptyString
              (Some "Failed to find events: date value out of range"))),
     mkworld (mkdate 9999 12 25) []).
Proof.
  apply (find_events_api_end_of_calendar
           (Samples.model_returning Samples.bare_text) Samples.request
           (mkworld (mkdate 9999 12 25) [])).
  - apply valid_dateb_iff. reflexivity.
  - vm_compute. reflexivity.
Defined.

(** The handler carries nothing over from one request to the next:
    what it ends with depends on the calls made before only through
    what the handle answers to this request's prompt.  On the same
    date, when the handle answers that prompt the same way after two
    histories, the request ends the same way. *)
Theorem find_events_api_keeps_no_state gemini_model req w1 w2 :
  clock w1 = clock w2 ->
  (forall model p,
     gemini_model = Some model ->
     build_prompt (location req) (interest_description req) 14 (clock w1)
       = Ok p ->
     generate_content model (calls w1) p =
     generate_content model (calls w2) p) ->
  fst (find_events_api gemini_model req w1) =
  fst (find_events_api gemini_model req w2).
Proof.
  intros Hc Hsame. destruct gemini_model as [model|]; [|reflexivity].
  rewrite !find_events_api_run, <- Hc.
  destruct (build_prompt _ _ _ _) as [prompt|e] eqn:E; [|reflexivity].
  cbv zeta. rewrite <- (Hsame model prompt eq_refl eq_refl).
  destruct (generate_content model (calls w1) prompt) as [response|e];
    [|reflexivity].
  rewrite (handle_response_fst response _
             (mkworld (clock w1) (calls w2 ++ [(prompt, Ok response)]))).
  destruct (fst (handle_response response _)); reflexivity.
Qed.

Lemma find_events_api_keeps_no_state_witness :
  let model :=
    mkModel (fun before _ =>
               match before with
               | [] | [_] => Ok Samples.bare_text
               | _ => Raise Samples.quota
               end) in
  fst (find_events_api (Some model) Samples.request Samples.start) =
  fst (find_events_api (Some model) Samples.request
         (mkworld Samples.april_1 [("earlier", Raise Samples.quota)])).
Proof.
  intros model.
  apply (find_events_api_keeps_no_state (Some model) Samples.request
           Samples.start
           (mkworld Samples.april_1 [("earlier", Raise Samples.quota)])).
  - reflexivity.
  - intros model' p E _. injection E as <-. reflexivity.
Defined.

(** What [find_local_events_via_search] itself does with the outcome of
    the call, for any number of days: an exception of the model is
    raised again as it is, a blocked or empty response is raised as an
    [Exception], and a text comes back only from a usable response. *)
Theorem find_local_events_via_search_outcome
    model loc interest days w p :
  build_prompt loc interest
    (match days with Some n => n | None => 14 end) (clock w) = Ok p ->
  let out := fst (find_local_events_via_search model loc interest days w) in
  (forall e, generate_content model (calls w) p = Raise e ->
             out = Raise e) /\
  (forall r, generate_content model (calls w) p = Ok r ->
     (forall t, out = Ok t -> usable r /\ text r = Some t) /\
     (forall e, out = Raise e ->
        exn_class e = "Exception" \/ exn_class e = "AttributeError")).
Proof.
  intros Hp out. subst out.
  rewrite find_local_events_via_search_run, Hp. cbv zeta.
  split.
  - intros e ->. reflexivity.
  - intros r ->. cbn [fst].
    unfold usable, handle_response, parts_truthy, block_reason_truthy,
      hasattr_text, getattr_text, lift, raise.
    destruct r as [tn ps br tx]; cbn [parts block_reason text type_name].
    destruct ps as [|part ps]; cbn [negb].
    + destruct br as [m|]; [destruct (value m =? 0)|]; cbn [negb];
        try (destruct tx as [[|c t]|]); cbn [Text.truthy andb fst];
        (split; [intros t' Ht'; try discriminate | intros e He;
                 try discriminate; injection He as <-; auto]);
        injection Ht' as <-;
        (split; [right; repeat split; eexists; split;
                  [reflexivity | discriminate] | reflexivity]).
    + destruct tx as [t|]; cbn [fst];
        (split; [intros t' Ht'; try discriminate | intros e He;
                 try discriminate; injection He as <-; auto]).
      injection Ht' as <-. split; [left; split; discriminate | reflexivity].
Qed.

Lemma find_local_events_via_search_outcome_witness :
  fst (find_local_events_via_search (Samples.model_raising Samples.quota)
         "Blaine, MN" "jazz" (Some 14) Samples.start) = Raise Samples.quota.
Proof.
  destruct (find_local_events_via_search_outcome
              (Samples.model_raising Samples.quota) "Blaine, MN" "jazz"
              (Some 14) Samples.start Samples.prompt) as [H _].
  - vm_compute. reflexivity.
  - apply H. reflexivity.
Defined.

End HandlerMore.

(** ** The placeholder tools *)

Module ToolsFacts.

Import Tools.

(** [_get_product_details_from_db] answers with the error dictionary
    exactly for the ids other than the two in the table (ids are
    compared as they are, case included); for those two it gives their
    details, which have no ["error"] key.  The answer is never empty. *)
Theorem get_product_details_found_iff product_id :
  let r := _get_product_details_from_db product_id in
  (r = [("error", VStr "Product ID not found")] <->
   product_id <> "prod_123" /\ product_id <> "prod_456") /\
  (dict_has r "error" = false <->
   product_id = "prod_123" \/ product_id = "prod_456") /\
  (dict_has r "error" = false ->
   dict_has r "name" = true /\ dict_has r "price" = true /\
   dict_has r "condition" = true /\ dict_has r "stock" = true) /\
  r <> [].
Proof.
  cbv zeta. unfold _get_product_details_from_db, mock_db.
  cbn [dict_get].
  destruct (String.eqb_spec "prod_123" product_id) as [<-|H1];
    [|destruct (String.eqb_spec "prod_456" product_id) as [<-|H2]];
    cbn; repeat split; intros;
    try discriminate; try tauto; try congruence;
    match goal with
    | H : _ /\ _ |- _ => destruct H; congruence
    | H : _ \/ _ |- _ => destruct H; congruence
    end.
Qed.

Lemma lower_upper_char c : lower_char (upper_char c) = lower_char c.
Proof.
  destruct c as [[] [] [] [] [] [] [] []]; reflexivity.
Qed.

Lemma lower_lower_char c : lower_char (lower_char c) = lower_char c.
Proof.
  destruct c as [[] [] [] [] [] [] [] []]; reflexivity.
Qed.

Lemma lower_upper s : lower (upper s) = lower s.
Proof.
  induction s as [|c s IH]; cbn; [reflexivity|].
  now rewrite lower_upper_char, IH.
Qed.

Lemma lower_lower s : lower (lower s) = lower s.
Proof.
  induction s as [|c s IH]; cbn; [reflexivity|].
  now rewrite lower_lower_char, IH.
Qed.

(** [_lookup_market_trends] does not look at the case of the letters:
    for an ASCII category, its upper-case and lower-case spellings get
    the same answer as the category itself. *)
Theorem lookup_market_trends_ignores_case category :
  isascii category = true ->
  _lookup_market_trends (upper category) = _lookup_market_trends category /\
  _lookup_market_trends (lower category) = _lookup_market_trends category.
Proof.
  intros _. unfold _lookup_market_trends.
  now rewrite lower_upper, lower_lower.
Qed.

Lemma lookup_market_trends_ignores_case_witness :
  _lookup_market_trends (upper "BiKeS") = _lookup_market_trends "BiKeS" /\
  _lookup_market_trends (lower "BiKeS") = _lookup_market_trends "BiKeS".
Proof.
  apply (lookup_market_trends_ignores_case "BiKeS"). reflexivity.
Defined.

(** For an ASCII category, [_lookup_market_trends] gives the general
    "info" answer exactly when the category, in lower case, is none of
    the three in the table; otherwise it gives a trend and a price
    range.  It never answers with an ["error"] key or an empty
    dictionary. *)
Theorem lookup_market_trends_known_iff category :
  isascii category = true ->
  let r := _lookup_market_trends category in
  (r = [("info",
         VStr "General market stable, specific trends unavailable.")] <->
   lower category <> "clothing" /\ lower category <> "bikes" /\
   lower category <> "electronics") /\
  (dict_has r "info" = false ->
   dict_has r "trend" = true /\ dict_has r "avg_price_range" = true) /\
  dict_has r "error" = false /\ r <> [].
Proof.
  intros _. cbv zeta. unfold _lookup_market_trends, trends.
  cbn [dict_get].
  destruct (String.eqb_spec "clothing" (lower category)) as [<-|H1];
    [|destruct (String.eqb_spec "bikes" (lower category)) as [<-|H2];
      [|destruct (String.eqb_spec "electronics" (lower category))
          as [<-|H3]]];
    cbn; repeat split; try discriminate; try tauto; try congruence;
    intros; try tauto; try congruence.
Qed.

Lemma lookup_market_trends_known_iff_witness :
  dict_has (_lookup_market_trends "Electronics") "trend" = true /\
  dict_has (_lookup_market_trends "toys") "info" = true.
Proof.
  split.
  - apply (lookup_market_trends_known_iff "Electronics"); reflexivity.
  - reflexivity.
Defined.

End ToolsFacts.

(** ** Startup *)

Module StartupFacts.

Import Main Startup.

(** The model handle is there after startup exactly when the API key
    is set and not empty and both calls to the library succeed; it is
    then the handle the library returned, and the library was
    configured with that key. *)
Theorem lifespan_startup_model_iff env lib model :
  fst (lifespan_startup env lib) = Some model <->
  exists api_key,
    env "GEMINI_API_KEY" = Some api_key /\ api_key <> EmptyString /\
    configure lib api_key = Ok tt /\
    new_GenerativeModel lib "gemini-1.5-pro-latest" = Ok model /\
    snd (lifespan_startup env lib) =
      [Configure api_key; NewModel "gemini-1.5-pro-latest"].
Proof.
  unfold lifespan_startup, initialize_model. cbv zeta.
  destruct (env "GEMINI_API_KEY") as [[|c k]|] eqn:E; cbn [Text.truthy negb].
  - cbn. split; [discriminate|]. intros (k' & [= <-] & Hne & _). congruence.
  - destruct (configure lib (String c k)) as [[]|e] eqn:Ec.
    + destruct (new_GenerativeModel lib "gemini-1.5-pro-latest")
        as [m|e] eqn:Em.
      * cbn. split.
        -- intros [= <-]. exists (String c k). rewrite Ec.
           repeat split; congruence.
        -- intros (k' & [= <-] & _ & _ & [= <-] & _). reflexivity.
      * split.
        -- destruct (exn_class e =? "ValueError")%string; discriminate.
        -- intros (k' & [= <-] & _ & _ & H & _). discriminate.
    + split.
      * destruct (exn_class e =? "ValueError")%string; discriminate.
      * intros (k' & [= <-] & _ & H & _). congruence.
  - cbn. split; [discriminate|]. intros (k' & H & _). discriminate.
Qed.

(** Without an API key (unset or empty) the library is not called at
    all, startup does not fail, and every request then gets the "AI
    model is not available" answer without a call to the hosted
    model. *)
Theorem no_api_key_no_model env lib req w :
  env "GEMINI_API_KEY" = None \/ env "GEMINI_API_KEY" = Some EmptyString ->
  lifespan_startup env lib = (None, []) /\
  find_events_api (fst (lifespan_startup env lib)) req w =
    (Finished
       (Ok (mkEventResponse EmptyString
              (Some "AI model is not available. Please check server logs or try again later."))),
     w).
Proof.
  intros H.
  assert (E : lifespan_startup env lib = (None, [])).
  { unfold lifespan_startup, initialize_model. cbv zeta.
    destruct H as [-> | ->]; reflexivity. }
  rewrite E. split; reflexivity.
Qed.

Lemma no_api_key_no_model_witness :
  lifespan_startup (fun _ => None)
    (mkgenai (fun _ => Ok tt)
             (fun _ => Ok (Samples.model_returning Samples.bare_text)))
    = (None, []).
Proof.
  apply (no_api_key_no_model (fun _ => None)
           (mkgenai (fun _ => Ok tt)
              (fun _ => Ok (Samples.model_returning Samples.bare_text)))
           Samples.request Samples.start).
  left. reflexivity.
Defined.

(** When the library fails, in [configure] or in building the model,
    startup still does not fail: the handle stays unset and every
    request gets the "AI model is not available" answer. *)
Theorem library_failure_no_model env lib req w e :
  (exists api_key, env "GEMINI_API_KEY" = Some api_key /\
     (configure lib api_key = Raise e \/
      new_GenerativeModel lib "gemini-1.5-pro-latest" = Raise e)) ->
  fst (lifespan_startup env lib) = None /\
  find_events_api (fst (lifespan_startup env lib)) req w =
    (Finished
       (Ok (mkEventResponse EmptyString
              (Some "AI model is not available. Please check server logs or try again later."))),
     w).
Proof.
  intros (k & Hk & H).
  assert (E : fst (lifespan_startup env lib) = None).
  { destruct (fst (lifespan_startup env lib)) as [m|] eqn:Em;
      [|reflexivity].
    apply lifespan_startup_model_iff in Em
      as (k' & Hk' & _ & Hc & Hn & _).
    rewrite Hk in Hk'. injection Hk' as <-.
    destruct H; congruence. }
  rewrite E. split; reflexivity.
Qed.

Lemma library_failure_no_model_witness :
  fst (lifespan_startup (fun _ => Some "key")
         (mkgenai (fun _ => Ok tt) (fun _ => Raise Samples.quota))) = None.
Proof.
  apply (library_failure_no_model (fun _ => Some "key")
           (mkgenai (fun _ => Ok tt) (fun _ => Raise Samples.quota))
           Samples.request Samples.start Samples.quota).
  exists "key". split; [reflexivity|]. right. reflexivity.
Defined.

End StartupFacts.
